(** * OT/ICS threat monitor: the CVE pipeline of [cve_fetcher.py],
      [cve_analyzer.py] and [agent.py], embedded in Rocq.

    Python values are dynamically typed, so the embedding carries a small
    universe [pyval] of the values the program handles (exactly the values
    [json.loads] can produce) and an error monad for raised exceptions.

    Modelling conventions.
    - In the pipeline a Python [str] is a Rocq [string]; one [ascii] stands
      for one character, and [lower] is [str.lower] as it acts on ASCII
      text.  Module [Unicode] has the relevance filter on text of arbitrary
      code points, with [str.lower] itself as a parameter; on ASCII text the
      two coincide ([found_keywords_on_ascii]).
    - A Python number is a rational [Q]; the program only copies numbers,
      tests them for zero and compares them for equality.
    - A Python [dict] with string keys is an association list read by
      [dict_lookup]; a [set] is a list read through [py_eq].
    - Library calls whose code is not part of the repository ([json.loads],
      [json.dump]/[json.load], [str.strip], string formatting, the oracle,
      the clock, the HTTP feed) are section variables or explicit inputs. *)

From Stdlib Require Import String Ascii List Bool Arith NArith Lia QArith DecimalString.
Import ListNotations.
Local Close Scope Q_scope.
Local Open Scope list_scope.
Local Open Scope string_scope.

(* ===================================================================== *)
(** ** Python strings *)
(* ===================================================================== *)

Module PyString.

(** [str.lower] on one character of ASCII text: 'A'..'Z' move to
    'a'..'z'. *)
Definition lower_char (c : ascii) : ascii :=
  let n := nat_of_ascii c in
  if ((65 <=? n) && (n <=? 90))%nat then ascii_of_nat (n + 32) else c.

(** [s.lower()] *)
Fixpoint lower (s : string) : string :=
  match s with
  | EmptyString => EmptyString
  | String c rest => String (lower_char c) (lower rest)
  end.

(** [s.startswith(p)] *)
Fixpoint startswith (p s : string) : bool :=
  match p, s with
  | EmptyString, _ => true
  | String _ _, EmptyString => false
  | String a p', String b s' => Ascii.eqb a b && startswith p' s'
  end.

(** [needle in hay] on two strings: substring search. *)
Fixpoint str_in (needle hay : string) : bool :=
  match hay with
  | EmptyString => startswith needle hay
  | String _ rest => startswith needle hay || str_in needle rest
  end.

(** [s[:n]] *)
Fixpoint str_take (n : nat) (s : string) : string :=
  match n, s with
  | O, _ => EmptyString
  | S _, EmptyString => EmptyString
  | S n', String c rest => String c (str_take n' rest)
  end.

(** The characters of [s], each as a one-character string (iteration
    over a [str]). *)
Fixpoint str_chars (s : string) : list string :=
  match s with
  | EmptyString => []
  | String c rest => String c EmptyString :: str_chars rest
  end.

End PyString.
Import PyString.

(* ===================================================================== *)
(** ** Python values, exceptions and the dynamic operations the code uses *)
(* ===================================================================== *)

Module Py.

(** The values [json.loads] produces; also the values held by the
    dictionaries and dataclass fields of the program. *)
#[warnings="-register-all"] Inductive pyval : Type :=
| PyNone
| PyBool (b : bool)
| PyNum (q : Q)
| PyStr (s : string)
| PyList (l : list pyval)
| PyDict (d : list (string * pyval)).

(** A [dict] with string keys. *)
Definition dict : Type := list (string * pyval).

Inductive exn : Type :=
| KeyError
| IndexError
| TypeError
| AttributeError
| JSONDecodeError
| RequestException
| OracleError.

(** The outcome of an expression that may raise. *)
Inductive result (A : Type) : Type :=
| Ok (a : A)
| Raise (e : exn).
Arguments Ok {A} a.
Arguments Raise {A} e.

Definition bind {A B : Type} (r : result A) (k : A -> result B) : result B :=
  match r with
  | Ok a => k a
  | Raise e => Raise e
  end.

Declare Scope py_scope.
Delimit Scope py_scope with py.
Notation "x <- r ;; k" := (bind r (fun x => k))
  (at level 61, r at next level, right associativity) : py_scope.

(** [d[k]] read as an option: the first binding of [k]. *)
Fixpoint dict_lookup (k : string) (d : dict) : option pyval :=
  match d with
  | [] => None
  | (k', v) :: rest => if String.eqb k k' then Some v else dict_lookup k rest
  end.

(** [d.get(k, dflt)] on a value known to be a dict. *)
Definition dict_get (d : dict) (k : string) (dflt : pyval) : pyval :=
  match dict_lookup k d with
  | Some v => v
  | None => dflt
  end.

Definition dict_keys (d : dict) : list string := map fst d.

(** [True] is the number 1 and [False] the number 0. *)
Definition bool_num (b : bool) : Q := if b then 1%Q else 0%Q.

(** [a == b] *)
Fixpoint py_eq (a b : pyval) {struct a} : bool :=
  match a, b with
  | PyNone, PyNone => true
  | PyBool x, PyBool y => Bool.eqb x y
  | PyBool x, PyNum q => Qeq_bool (bool_num x) q
  | PyNum p, PyBool y => Qeq_bool p (bool_num y)
  | PyNum p, PyNum q => Qeq_bool p q
  | PyStr s, PyStr t => String.eqb s t
  | PyList l, PyList m =>
      (fix all2 (l m : list pyval) {struct l} : bool :=
         match l, m with
         | [], [] => true
         | x :: l', y :: m' => py_eq x y && all2 l' m'
         | _, _ => false
         end) l m
  | PyDict d, PyDict e =>
      Nat.eqb (length d) (length e) &&
      (fix all_in (d : list (string * pyval)) {struct d} : bool :=
         match d with
         | [] => true
         | (k, v) :: d' =>
             match dict_lookup k e with
             | Some w => py_eq v w
             | None => false
             end && all_in d'
         end) d
  | _, _ => false
  end.

(** Truth value of a value in a condition. *)
Definition py_truthy (v : pyval) : bool :=
  match v with
  | PyNone => false
  | PyBool b => b
  | PyNum q => negb (Qeq_bool q 0)
  | PyStr s => negb (String.eqb s "")
  | PyList l => match l with [] => false | _ => true end
  | PyDict d => match d with [] => false | _ => true end
  end.

(** [v.get(k, dflt)]: only a dict has the method. *)
Definition py_get (v : pyval) (k : string) (dflt : pyval) : result pyval :=
  match v with
  | PyDict d => Ok (dict_get d k dflt)
  | _ => Raise AttributeError
  end.

(** [v[0]] *)
Definition py_index0 (v : pyval) : result pyval :=
  match v with
  | PyList (x :: _) => Ok x
  | PyList [] => Raise IndexError
  | PyStr (String c _) => Ok (PyStr (String c EmptyString))
  | PyStr EmptyString => Raise IndexError
  | PyDict _ => Raise KeyError
  | _ => Raise TypeError
  end.

(** [v[k]] for a string key [k] *)
Definition py_getitem (v : pyval) (k : string) : result pyval :=
  match v with
  | PyDict d =>
      match dict_lookup k d with
      | Some x => Ok x
      | None => Raise KeyError
      end
  | _ => Raise TypeError
  end.

(** [k in v] for a string [k] *)
Definition py_contains (k : string) (v : pyval) : result bool :=
  match v with
  | PyDict d => Ok (existsb (String.eqb k) (dict_keys d))
  | PyList l => Ok (existsb (fun x => py_eq x (PyStr k)) l)
  | PyStr s => Ok (str_in k s)
  | _ => Raise TypeError
  end.

(** The items [for x in v] runs through. *)
Definition py_iter (v : pyval) : result (list pyval) :=
  match v with
  | PyList l => Ok l
  | PyDict d => Ok (map PyStr (dict_keys d))
  | PyStr s => Ok (map PyStr (str_chars s))
  | _ => Raise TypeError
  end.

(** Lists and dicts cannot be set members. *)
Definition py_hashable (v : pyval) : bool :=
  match v with
  | PyList _ | PyDict _ => false
  | _ => true
  end.

(** [x in s] for a set [s], kept as the list of its members. *)
Definition set_contains (x : pyval) (s : list pyval) : result bool :=
  if py_hashable x then Ok (existsb (fun y => py_eq y x) s)
  else Raise TypeError.

End Py.
Import Py.
Local Open Scope py_scope.

(* ===================================================================== *)
(** ** cve_analyzer.py *)
(* ===================================================================== *)

Module Analyzer.

(** The dataclass [OTThreat].  Python does not enforce the annotations,
    so every field holds a [pyval]. *)
Record OTThreat : Type := mkOTThreat {
  cve_id : pyval;
  cvss_score : pyval;
  description : pyval;
  ai_insight : pyval;
  ot_keywords_found : pyval;
  timestamp : pyval
}.

(** [self.ot_keywords], set by [CVEOTAnalyzer.__init__]. *)
Definition ot_keywords : list string :=
  [ "SCADA"; "PLC"; "HMI"; "DCS"; "ICS"; "RTU";
    "Siemens"; "Rockwell"; "Allen-Bradley"; "Schneider"; "ABB"; "Emerson";
    "Modbus"; "DNP3"; "OPC"; "PROFINET"; "EtherNet/IP"; "BACnet";
    "industrial"; "factory"; "manufacturing"; "critical infrastructure";
    "water treatment"; "power grid"; "energy"; "oil gas"; "chemical plant";
    "OT"; "operational technology"; "industrial control"; "process control" ].

(** [is_ot_related]: the loop over the lowered keywords. *)
Definition is_ot_related (description : string) : bool :=
  let description_lower := lower description in
  let keywords_lower := map lower ot_keywords in
  existsb (fun keyword => str_in keyword description_lower) keywords_lower.

(** [[k for k in self.ot_keywords if k.lower() in description.lower()]] *)
Definition found_keywords (description : string) : list string :=
  filter (fun k => str_in (lower k) (lower description)) ot_keywords.

(** The [ai_insight] of the [except] branch. *)
Definition fallback_insight : string :=
  "Rule-based OT detection (LLM unavailable)".

(** The default of [llm_response.get("risk_explanation", ...)]. *)
Definition no_insight : string := "No insight provided".

(** What [self.client.responses.create] does: it raises, or it returns a
    response whose [output_text] is a string. *)
Inductive oracle_reply : Type :=
| OracleRaises
| OracleText (output_text : string).

(** The part of the outside world the analyzer touches: the prompts sent
    to the oracle so far (latest first) and the number of clock readings. *)
Record world : Type := mkWorld {
  oracle_calls : list string;
  clock_reads : nat
}.

Definition dq : string := String "034"%char EmptyString.

Section WithEnvironment.

(** The oracle's answer to a prompt, given the prompts sent before. *)
Variable oracle : list string -> string -> oracle_reply.
(** [datetime.now().isoformat()] at the n-th reading of the clock. *)
Variable now_isoformat : nat -> string.
(** [json.loads]; [None] when it raises. *)
Variable json_loads : string -> option pyval.
(** [str.strip] *)
Variable str_strip : string -> string.
(** A value formatted inside an f-string. *)
Variable py_format : pyval -> string.

(** The f-string of [analyze_with_llm]. *)
Definition prompt_of (cve_id : pyval) (description : string)
    (cvss_score : pyval) : string :=
  "
Analyze this CVE for Operational Technology (OT/ICS) impact:

CVE ID: " ++ py_format cve_id ++ "
Description: " ++ description ++ "
CVSS Score: " ++
  (if py_truthy cvss_score then py_format cvss_score else "Not specified")
  ++ "

Task:
1. Confirm this is OT/ICS related
2. Explain why this is dangerous for industrial environments/factories
3. Focus on potential impact to: production lines, safety systems, physical processes

Respond in JSON format:
{
    " ++ dq ++ "is_ot_related" ++ dq ++ ": true/false,
    " ++ dq ++ "risk_explanation" ++ dq ++ ": "
      ++ dq ++ "Detailed explanation of OT risks" ++ dq ++ ",
    " ++ dq ++ "affected_systems" ++ dq ++ ": ["
      ++ dq ++ "PLC" ++ dq ++ ", " ++ dq ++ "SCADA" ++ dq ++ ", etc.],
    " ++ dq ++ "recommended_actions" ++ dq ++ ": ["
      ++ dq ++ "Immediate actions to take" ++ dq ++ "]
}
".

(** The threat both confirming branches build, up to its insight. *)
Definition threat_of (cve : dict) (id : pyval) (text : string)
    (insight : pyval) (w : world) : OTThreat :=
  mkOTThreat id (dict_get cve "cvss_score" (PyNum 0))
             (PyStr (str_take 500 text)) insight
             (PyList (map PyStr (found_keywords text)))
             (PyStr (now_isoformat (clock_reads w))).

(** The prompt sent for a record. *)
Definition prompt_for (cve : dict) (id : pyval) (text : string) : string :=
  prompt_of id text (dict_get cve "cvss_score" (PyNum 0)).

(** The world after the oracle was called once, and after the clock was
    read as well. *)
Definition called (cve : dict) (id : pyval) (text : string) (w : world) : world :=
  mkWorld (prompt_for cve id text :: oracle_calls w) (clock_reads w).

Definition called_and_stamped (cve : dict) (id : pyval) (text : string)
    (w : world) : world :=
  mkWorld (prompt_for cve id text :: oracle_calls w) (S (clock_reads w)).

(** [datetime.now().isoformat()] *)
Definition read_clock (w : world) : string * world :=
  (now_isoformat (clock_reads w),
   mkWorld (oracle_calls w) (S (clock_reads w))).

(** [self.client.responses.create(...)] *)
Definition call_oracle (prompt : string) (w : world) : oracle_reply * world :=
  (oracle (oracle_calls w) prompt,
   mkWorld (prompt :: oracle_calls w) (clock_reads w)).

(** The body of the [try] up to the decision: [Raise] is any exception
    the [except Exception] clause catches; [Ok (Some insight)] is the
    confirmed branch, [Ok None] the [else: return None]. *)
Definition oracle_verdict (reply : oracle_reply) : result (option pyval) :=
  match reply with
  | OracleRaises => Raise OracleError
  | OracleText output_text =>
      let llm_response_text := str_strip output_text in
      match json_loads llm_response_text with
      | None => Raise JSONDecodeError
      | Some llm_response =>
          flag <- py_get llm_response "is_ot_related" (PyBool false) ;;
          if py_truthy flag then
            insight <- py_get llm_response "risk_explanation" (PyStr no_insight) ;;
            Ok (Some insight)
          else Ok None
      end
  end.

(** [analyze_with_llm].  A missing key or a description that is not a
    string raises before the [try] and reaches the caller. *)
Definition analyze_with_llm (cve_data : dict) (w : world)
    : result (option OTThreat) * world :=
  match dict_lookup "description" cve_data with
  | None => (Raise KeyError, w)
  | Some description_v =>
  match dict_lookup "cve_id" cve_data with
  | None => (Raise KeyError, w)
  | Some cve_id =>
  let cvss_score := dict_get cve_data "cvss_score" (PyNum 0) in
  match description_v with
  | PyStr description =>
      let found := found_keywords description in
      match found with
      | [] => (Ok None, w)
      | _ :: _ =>
          let prompt := prompt_of cve_id description cvss_score in
          let (reply, w1) := call_oracle prompt w in
          match oracle_verdict reply with
          | Ok (Some insight) =>
              let (ts, w2) := read_clock w1 in
              (Ok (Some (mkOTThreat cve_id cvss_score
                           (PyStr (str_take 500 description))
                           insight
                           (PyList (map PyStr found))
                           (PyStr ts))), w2)
          | Ok None => (Ok None, w1)
          | Raise _ =>
              let (ts, w2) := read_clock w1 in
              (Ok (Some (mkOTThreat cve_id cvss_score
                           (PyStr (str_take 500 description))
                           (PyStr fallback_insight)
                           (PyList (map PyStr found))
                           (PyStr ts))), w2)
          end
      end
  | _ => (Raise AttributeError, w)
  end
  end
  end.

(** [batch_analyze]: an [OTThreat] instance is always true in a
    condition, so every returned threat is appended. *)
Fixpoint batch_analyze_from (ot_threats : list OTThreat) (cves : list dict)
    (w : world) : result (list OTThreat) * world :=
  match cves with
  | [] => (Ok ot_threats, w)
  | cve :: rest =>
      match analyze_with_llm cve w with
      | (Raise e, w') => (Raise e, w')
      | (Ok None, w') => batch_analyze_from ot_threats rest w'
      | (Ok (Some threat), w') =>
          batch_analyze_from (ot_threats ++ [threat])%list rest w'
      end
  end.

Definition batch_analyze (cves : list dict) (w : world)
    : result (list OTThreat) * world :=
  batch_analyze_from [] cves w.

End WithEnvironment.

End Analyzer.

(* ===================================================================== *)
(** ** cve_fetcher.py *)
(* ===================================================================== *)

Module Fetcher.

(** What the HTTP request of one call comes to: [requests.get] or
    [raise_for_status] raises, [response.json()] raises, or the body
    parses to [data]. *)
Inductive feed_reply : Type :=
| FeedRaises
| FeedNotJson
| FeedJson (data : pyval).

(** The fetcher object: [processed_cves] is the only field that is read
    after construction. *)
Record CVEFetcher : Type := mkFetcher {
  processed_cves : list pyval
}.

(** [CVEFetcher()] *)
Definition new_fetcher : CVEFetcher := mkFetcher [].

(** [metrics[scheme][0]['cvssData']['baseScore']] *)
Definition base_score (metrics : pyval) (scheme : string) : result pyval :=
  entries <- py_getitem metrics scheme ;;
  entry <- py_index0 entries ;;
  cvss_data <- py_getitem entry "cvssData" ;;
  py_getitem cvss_data "baseScore".

(** The [if]/[elif] chain over the scoring schemes; [None] when no scheme
    is present. *)
Definition extract_score (metrics : pyval) : result pyval :=
  has31 <- py_contains "cvssMetricV31" metrics ;;
  if has31 then base_score metrics "cvssMetricV31" else
  has30 <- py_contains "cvssMetricV30" metrics ;;
  if has30 then base_score metrics "cvssMetricV30" else
  has2 <- py_contains "cvssMetricV2" metrics ;;
  if has2 then base_score metrics "cvssMetricV2" else
  Ok PyNone.

(** One pass through the loop body: [Skip] is the [continue]. *)
Inductive visit_outcome : Type :=
| Skip
| Fresh (cve_id : pyval) (cve_info : dict).

Definition visit (vulnerability : pyval) (processed : list pyval)
    : result visit_outcome :=
  cve_data <- py_get vulnerability "cve" (PyDict []) ;;
  cve_id <- py_get cve_data "id" (PyStr "") ;;
  seen <- set_contains cve_id processed ;;
  if seen then Ok Skip else
  descriptions <- py_get cve_data "descriptions" (PyList [PyDict []]) ;;
  first_description <- py_index0 descriptions ;;
  description <- py_get first_description "value" (PyStr "") ;;
  metrics <- py_get cve_data "metrics" (PyDict []) ;;
  cvss_score <- extract_score metrics ;;
  published <- py_get cve_data "published" (PyStr "") ;;
  last_modified <- py_get cve_data "lastModified" (PyStr "") ;;
  references <- py_get cve_data "references" (PyList []) ;;
  Ok (Fresh cve_id
        [ ("cve_id", cve_id);
          ("description", description);
          ("cvss_score", cvss_score);
          ("published_date", published);
          ("last_modified", last_modified);
          ("references", references);
          ("raw_data", cve_data) ]).

(** The [for] loop.  [processed] is the object's set, mutated in place:
    what was added before an exception stays added. *)
Fixpoint fetch_loop (vulnerabilities : list pyval) (cves : list dict)
    (processed : list pyval) : result (list dict) * list pyval :=
  match vulnerabilities with
  | [] => (Ok cves, processed)
  | vulnerability :: rest =>
      match visit vulnerability processed with
      | Raise e => (Raise e, processed)
      | Ok Skip => fetch_loop rest cves processed
      | Ok (Fresh cve_id cve_info) =>
          fetch_loop rest (cves ++ [cve_info])%list (cve_id :: processed)
      end
  end.

(** The body of the [try] of [fetch_latest_cves], with the set as the
    loop left it. *)
Definition try_fetch (reply : feed_reply) (self : CVEFetcher)
    : result (list dict) * CVEFetcher :=
  match reply with
  | FeedRaises => (Raise RequestException, self)
  | FeedNotJson => (Raise JSONDecodeError, self)
  | FeedJson data =>
      match (v <- py_get data "vulnerabilities" (PyList []) ;; py_iter v) with
      | Raise e => (Raise e, self)
      | Ok vulnerabilities =>
          let (outcome, processed) :=
            fetch_loop vulnerabilities [] (processed_cves self) in
          (outcome, mkFetcher processed)
      end
  end.

(** [fetch_latest_cves]: [except Exception] turns every exception into
    [return []]. *)
Definition fetch_latest_cves (reply : feed_reply) (self : CVEFetcher)
    : list dict * CVEFetcher :=
  match try_fetch reply self with
  | (Ok cves, self1) => (cves, self1)
  | (Raise _, self1) => ([], self1)
  end.

(** A run of calls on one instance: the replies of the feed, in order. *)
Fixpoint fetch_many (replies : list feed_reply) (self : CVEFetcher)
    : list (list dict) * CVEFetcher :=
  match replies with
  | [] => ([], self)
  | reply :: rest =>
      let (cves, self1) := fetch_latest_cves reply self in
      let (later, self2) := fetch_many rest self1 in
      (cves :: later, self2)
  end.

End Fetcher.

(* ===================================================================== *)
(** ** agent.py *)
(* ===================================================================== *)

Module Agent.
Import Analyzer Fetcher.

(** [asdict(threat)]: the fields in declaration order; the copy it makes
    of nested lists and dicts has the same value. *)
Definition asdict (threat : OTThreat) : pyval :=
  PyDict [ ("cve_id", cve_id threat);
           ("cvss_score", cvss_score threat);
           ("description", description threat);
           ("ai_insight", ai_insight threat);
           ("ot_keywords_found", ot_keywords_found threat);
           ("timestamp", timestamp threat) ].

Definition field_names : list string :=
  [ "cve_id"; "cvss_score"; "description"; "ai_insight";
    "ot_keywords_found"; "timestamp" ].

(** [OTThreat] built from the keyword arguments [item]: it must be a mapping whose keys are the six
    field names, none missing and none extra. *)
Definition from_item (item : pyval) : result OTThreat :=
  match item with
  | PyDict d =>
      if forallb (fun k => existsb (String.eqb k) field_names) (dict_keys d)
      then
        match dict_lookup "cve_id" d, dict_lookup "cvss_score" d,
              dict_lookup "description" d, dict_lookup "ai_insight" d,
              dict_lookup "ot_keywords_found" d, dict_lookup "timestamp" d
        with
        | Some a, Some b, Some c, Some e, Some f, Some g =>
            Ok (mkOTThreat a b c e f g)
        | _, _, _, _, _, _ => Raise TypeError
        end
      else Raise TypeError
  | _ => Raise TypeError
  end.

(** The list comprehension of [load_existing_threats] over [data]. *)
Fixpoint from_items (items : list pyval) : result (list OTThreat) :=
  match items with
  | [] => Ok []
  | item :: rest =>
      threat <- from_item item ;;
      threats <- from_items rest ;;
      Ok (threat :: threats)
  end.

(** The loop body of step 3 of [run_cycle]: append unless some stored
    threat has an equal [cve_id]. *)
Definition add_threat (store : list OTThreat) (threat : OTThreat)
    : list OTThreat :=
  if existsb (fun t => py_eq (cve_id t) (cve_id threat)) store
  then store
  else (store ++ [threat])%list.

(** Step 3 of [run_cycle] for one batch. *)
Definition add_threats (store : list OTThreat) (batch : list OTThreat)
    : list OTThreat :=
  fold_left add_threat batch store.

(** Step 3 over the batches of successive cycles. *)
Definition add_batches (store : list OTThreat) (batches : list (list OTThreat))
    : list OTThreat :=
  fold_left add_threats batches store.

Definition output_file : string := "ot_threats.json".

Record AutonomousOTAgent : Type := mkAgent {
  fetcher : CVEFetcher;
  ot_threats : list OTThreat
}.

Section WithFiles.

(** What a file holds, and [json.dump] / [json.load] on it
    ([None] when [json.load] raises). *)
Variable file_text : Type.
Variable json_dump : pyval -> file_text.
Variable json_load : file_text -> option pyval.

(** The files by name; [None] for a file that does not exist. *)
Definition filesystem : Type := string -> option file_text.

Definition write_file (name : string) (text : file_text) (fs : filesystem)
    : filesystem :=
  fun n => if String.eqb n name then Some text else fs n.

(** [load_existing_threats]: only [FileNotFoundError] is caught. *)
Definition load_existing_threats (self : AutonomousOTAgent) (fs : filesystem)
    : result AutonomousOTAgent :=
  match fs output_file with
  | None => Ok self
  | Some text =>
      match json_load text with
      | None => Raise JSONDecodeError
      | Some data =>
          items <- py_iter data ;;
          threats <- from_items items ;;
          Ok (mkAgent (fetcher self) threats)
      end
  end.

(** [AutonomousOTAgent(api_key)] *)
Definition new_agent (fs : filesystem) : result AutonomousOTAgent :=
  load_existing_threats (mkAgent new_fetcher []) fs.

(** [save_threats] *)
Definition save_threats (self : AutonomousOTAgent) (fs : filesystem)
    : filesystem :=
  let threats_dict := map asdict (ot_threats self) in
  write_file output_file (json_dump (PyList threats_dict)) fs.

Variable oracle : list string -> string -> oracle_reply.
Variable now_isoformat : nat -> string.
Variable json_loads : string -> option pyval.
Variable str_strip : string -> string.
Variable py_format : pyval -> string.

(** Everything a cycle can change. *)
Record state : Type := mkState {
  agent : AutonomousOTAgent;
  outside : world;
  files : filesystem
}.

(** [run_cycle], given the feed's reply to this cycle's request.  An
    exception of [batch_analyze] is not caught here. *)
Definition run_cycle (reply : feed_reply) (st : state) : result unit * state :=
  let self := agent st in
  let (new_cves, fetcher1) := fetch_latest_cves reply (fetcher self) in
  match new_cves with
  | [] => (Ok tt, mkState (mkAgent fetcher1 (ot_threats self))
                          (outside st) (files st))
  | _ :: _ =>
      match batch_analyze oracle now_isoformat json_loads str_strip
              py_format new_cves (outside st) with
      | (Raise e, w) =>
          (Raise e, mkState (mkAgent fetcher1 (ot_threats self)) w (files st))
      | (Ok threats, w) =>
          let self1 := mkAgent fetcher1 (add_threats (ot_threats self) threats) in
          (Ok tt, mkState self1 w (save_threats self1 (files st)))
      end
  end.

End WithFiles.

End Agent.

Import Analyzer Fetcher Agent.

(* ===================================================================== *)
(** ** Notions the statements below are phrased with *)
(* ===================================================================== *)

(** [k] occurs in [text] as a substring up to the case of letters: some
    contiguous piece of [text] lowers to the same string as [k]. *)
Definition occurs_ci (k text : string) : Prop :=
  exists pre mid post, text = pre ++ mid ++ post /\ lower mid = lower k.

(** [l] keeps some elements of [m], in the order [m] has them. *)
Inductive subsequence {A : Type} : list A -> list A -> Prop :=
| subsequence_nil : subsequence [] []
| subsequence_skip (x : A) (l m : list A) :
    subsequence l m -> subsequence l (x :: m)
| subsequence_keep (x : A) (l m : list A) :
    subsequence l m -> subsequence (x :: l) (x :: m).

(** The threat carries the identifier [s]. *)
Definition has_id (s : string) (t : OTThreat) : bool :=
  py_eq (cve_id t) (PyStr s).

(** Two records returned by the fetcher carry different identifiers. *)
Definition distinct_ids (earlier later : dict) : Prop :=
  py_eq (dict_get earlier "cve_id" PyNone) (dict_get later "cve_id" PyNone)
  = false.

(** The identifier the loop reads from a feed entry. *)
Definition entry_id (vulnerability : pyval) : result pyval :=
  cve_data <- py_get vulnerability "cve" (PyDict []) ;;
  py_get cve_data "id" (PyStr "").

(** The entries of the page a reply carries. *)
Definition window_of (reply : feed_reply) : list pyval :=
  match reply with
  | FeedJson data =>
      match (v <- py_get data "vulnerabilities" (PyList []) ;; py_iter v) with
      | Ok vulnerabilities => vulnerabilities
      | Raise _ => []
      end
  | _ => []
  end.

(** The identifier of a record returned by the fetcher. *)
Definition record_id (cve_info : dict) : pyval :=
  dict_get cve_info "cve_id" PyNone.

(* ===================================================================== *)
(** ** A concrete environment for the examples *)
(* ===================================================================== *)

Module Demo.

Definition is_space (c : ascii) : bool :=
  let n := nat_of_ascii c in
  (((9 <=? n) && (n <=? 13)) || ((28 <=? n) && (n <=? 32)))%nat.

Fixpoint lstrip (s : string) : string :=
  match s with
  | EmptyString => EmptyString
  | String c rest => if is_space c then lstrip rest else s
  end.

Fixpoint rstrip (s : string) : string :=
  match s with
  | EmptyString => EmptyString
  | String c rest =>
      match rstrip rest with
      | EmptyString => if is_space c then EmptyString else String c EmptyString
      | kept => String c kept
      end
  end.

(** [str.strip] on ASCII text. *)
Definition strip (s : string) : string := rstrip (lstrip s).

(** Formatting for the values the examples put in a prompt: strings, and
    non-negative numbers with one decimal place, as CVSS scores are. *)
Definition format_score (q : Q) : string :=
  let tenths := Z.to_nat ((Qnum q * 10) / Zpos (Qden q)) in
  NilZero.string_of_uint (Nat.to_uint (tenths / 10)) ++ "."
  ++ NilZero.string_of_uint (Nat.to_uint (tenths mod 10)).

Definition format (v : pyval) : string :=
  match v with
  | PyNone => "None"
  | PyBool true => "True"
  | PyBool false => "False"
  | PyStr s => s
  | PyNum q => format_score q
  | PyList _ => "[...]"
  | PyDict _ => "{...}"
  end.

Definition clock (n : nat) : string :=
  match n with
  | O => "2025-01-01T00:00:00.000000"
  | _ => "2025-01-01T00:10:00.000000"
  end.

Definition text_not_relevant : string :=
  "{" ++ dq ++ "is_ot_related" ++ dq ++ ": false}".

Definition text_relevant : string :=
  "{" ++ dq ++ "is_ot_related" ++ dq ++ ": true, "
      ++ dq ++ "risk_explanation" ++ dq ++ ": "
      ++ dq ++ "Remote takeover of the controller" ++ dq ++ "}".

(** [json.loads] on the handful of texts the examples use. *)
Definition loads (s : string) : option pyval :=
  if String.eqb s "[]" then Some (PyList [])
  else if String.eqb s "{}" then Some (PyDict [])
  else if String.eqb s text_not_relevant
       then Some (PyDict [("is_ot_related", PyBool false)])
  else if String.eqb s text_relevant
       then Some (PyDict [("is_ot_related", PyBool true);
                          ("risk_explanation",
                           PyStr "Remote takeover of the controller")])
  else None.

Definition oracle_down : list string -> string -> oracle_reply :=
  fun _ _ => OracleRaises.

Definition oracle_says (text : string) : list string -> string -> oracle_reply :=
  fun _ _ => OracleText text.

Definition fresh_world : world := mkWorld [] 0.

Definition siemens_description : string :=
  "A buffer overflow in the Siemens S7 PLC firmware allows remote code execution".

(** A record as the fetcher builds it, with the fields the analyzer reads. *)
Definition candidate (id text : string) (score : pyval) : dict :=
  [ ("cve_id", PyStr id); ("description", PyStr text); ("cvss_score", score) ].

(** A feed entry with an identifier and a description, optionally with
    further keys under ["cve"]. *)
Definition feed_entry (id text : string) (more : dict) : pyval :=
  PyDict [ ("cve", PyDict (("id", PyStr id)
             :: ("descriptions",
                 PyList [PyDict [("lang", PyStr "en"); ("value", PyStr text)]])
             :: more)) ].

Definition feed_page (entries : list pyval) : feed_reply :=
  FeedJson (PyDict [ ("vulnerabilities", PyList entries) ]).

(** An entry whose list of descriptions is empty: reading its first
    element raises [IndexError]. *)
Definition entry_without_description (id : string) : pyval :=
  PyDict [ ("cve", PyDict [ ("id", PyStr id); ("descriptions", PyList []) ]) ].

(** The record the fetcher builds from [feed_entry id text []]. *)
Definition unscored_record (id text : string) : dict :=
  [ ("cve_id", PyStr id);
    ("description", PyStr text);
    ("cvss_score", PyNone);
    ("published_date", PyStr "");
    ("last_modified", PyStr "");
    ("references", PyList []);
    ("raw_data",
     PyDict [ ("id", PyStr id);
              ("descriptions",
               PyList [PyDict [("lang", PyStr "en"); ("value", PyStr text)]]) ]) ].

Definition plc_threat (id : string) (insight : string) : OTThreat :=
  mkOTThreat (PyStr id) (PyNum (75 # 10)) (PyStr "Overflow in a PLC")
             (PyStr insight) (PyList [PyStr "PLC"]) (PyStr (clock 0)).

End Demo.

(* ===================================================================== *)
(** ** agent.py: the driver loop *)
(* ===================================================================== *)

Module Driver.

Section WithWorld.

Variable file_text : Type.
Variable json_dump : pyval -> file_text.
Variable oracle : list string -> string -> oracle_reply.
Variable now_isoformat : nat -> string.
Variable json_loads : string -> option pyval.
Variable str_strip : string -> string.
Variable py_format : pyval -> string.

(** [run_continuous] up to the interrupt: one [run_cycle] per reply of the
    feed, the first at once and the next after each sleep.  Only
    [KeyboardInterrupt] is caught, so an exception of a cycle ends the
    run. *)
Fixpoint run_continuous (replies : list feed_reply) (st : state file_text)
    : result unit * state file_text :=
  match replies with
  | [] => (Ok tt, st)
  | reply :: rest =>
      match run_cycle file_text json_dump oracle now_isoformat json_loads
              str_strip py_format reply st with
      | (Ok _, st1) => run_continuous rest st1
      | (Raise e, st1) => (Raise e, st1)
      end
  end.

End WithWorld.

End Driver.
Import Driver.

(* ===================================================================== *)
(** ** dashboard.py: the parts that do not draw *)
(* ===================================================================== *)

Module Dashboard.

(** The default [data_file] of [OTThreatDashboard]. *)
Definition data_file : string := "ot_threats.json".

(** [load_data]: only [FileNotFoundError] is caught. *)
Definition load_data {file_text : Type} (json_load : file_text -> option pyval)
    (fs : filesystem file_text) : result pyval :=
  match fs data_file with
  | None => Ok (PyList [])
  | Some text =>
      match json_load text with
      | None => Raise JSONDecodeError
      | Some data => Ok data
      end
  end.

(** [[t.get('cvss_score', 0) for t in threats if t.get('cvss_score')]] *)
Fixpoint cvss_scores_of (items : list pyval) : result (list pyval) :=
  match items with
  | [] => Ok []
  | t :: rest =>
      shown <- py_get t "cvss_score" PyNone ;;
      if py_truthy shown then
        score <- py_get t "cvss_score" (PyNum 0) ;;
        scores <- cvss_scores_of rest ;;
        Ok (score :: scores)
      else cvss_scores_of rest
  end.

(** The scores of the histogram, under the guard [if threats:]. *)
Definition cvss_scores (threats : pyval) : result (list pyval) :=
  if py_truthy threats then
    items <- py_iter threats ;;
    cvss_scores_of items
  else Ok [].

(** The loop that fills [all_keywords] with [extend]. *)
Fixpoint all_keywords_from (all_keywords : list pyval) (items : list pyval)
    : result (list pyval) :=
  match items with
  | [] => Ok all_keywords
  | threat :: rest =>
      found <- py_get threat "ot_keywords_found" (PyList []) ;;
      more <- py_iter found ;;
      all_keywords_from (all_keywords ++ more)%list rest
  end.

Definition all_keywords (threats : pyval) : result (list pyval) :=
  if py_truthy threats then
    items <- py_iter threats ;;
    all_keywords_from [] items
  else Ok [].

(** The condition of the references block of a threat's expander:
    [threat.get('references')]. *)
Definition shows_references (threat : pyval) : result bool :=
  refs <- py_get threat "references" PyNone ;;
  Ok (py_truthy refs).

Definition style_critical : string := "background-color: #ff4b4b; color: white".
Definition style_high : string := "background-color: #ffa500; color: white".
Definition style_medium : string := "background-color: #ffff00".
Definition style_low : string := "background-color: #90ee90".

(** [color_cvss] on a number. *)
Definition color_cvss (val : Q) : string :=
  if Qle_bool 9 val then style_critical
  else if Qle_bool 7 val then style_high
  else if Qle_bool 4 val then style_medium
  else style_low.

End Dashboard.

(* ===================================================================== *)
(** ** Further notions *)
(* ===================================================================== *)

(** The record has what [analyze_with_llm] reads before its [try]: a
    string under ["description"] and something under ["cve_id"]. *)
Definition record_ok (cve : dict) : bool :=
  match dict_lookup "description" cve, dict_lookup "cve_id" cve with
  | Some (PyStr _), Some _ => true
  | _, _ => false
  end.

(** The record's description matches a keyword. *)
Definition needs_oracle (cve : dict) : bool :=
  match dict_lookup "description" cve with
  | Some (PyStr text) =>
      match found_keywords text with
      | [] => false
      | _ :: _ => true
      end
  | _ => false
  end.

(** Under the scheme [k] the metrics hold a first entry with the base
    score [s]. *)
Definition scheme_score (metrics : dict) (k : string) (s : pyval) : Prop :=
  exists entry rest data,
    dict_lookup k metrics = Some (PyList (PyDict entry :: rest)) /\
    dict_lookup "cvssData" entry = Some (PyDict data) /\
    dict_lookup "baseScore" data = Some s.

(** Every call of the run ends without an exception. *)
Fixpoint all_succeed (replies : list feed_reply) (self : CVEFetcher) : bool :=
  match replies with
  | [] => true
  | reply :: rest =>
      match try_fetch reply self with
      | (Ok _, self1) => all_succeed rest self1
      | (Raise _, _) => false
      end
  end.

(** Two stored threats have different identifiers, as [==] sees them. *)
Definition distinct_threat_ids (earlier later : OTThreat) : Prop :=
  py_eq (cve_id earlier) (cve_id later) = false.

(** The output file holds the store: either the dump of the list of
    threats, or no file yet and no threat. *)
Definition in_sync {file_text : Type} (json_dump : pyval -> file_text)
    (st : state file_text) : Prop :=
  files file_text st output_file
    = Some (json_dump (PyList (map asdict (ot_threats (agent file_text st)))))
  \/ (files file_text st output_file = None /\
      ot_threats (agent file_text st) = []).

(** How alarming a cell style is. *)
Definition style_rank (style : string) : nat :=
  if String.eqb style Dashboard.style_critical then 3
  else if String.eqb style Dashboard.style_high then 2
  else if String.eqb style Dashboard.style_medium then 1
  else 0.

(* ===================================================================== *)
(** ** A concrete run for the examples *)
(* ===================================================================== *)

Module Examples.

(** An agent just constructed where no output file exists; files hold
    JSON documents as they are. *)
Definition start : state pyval :=
  mkState pyval (mkAgent new_fetcher []) Demo.fresh_world (fun _ => None).

(** Two cycles: the second page repeats the entry of the first. *)
Definition pages : list feed_reply :=
  [ Demo.feed_page [Demo.feed_entry "CVE-2024-0001" "Overflow in a PLC" []];
    Demo.feed_page [Demo.feed_entry "CVE-2024-0001" "Overflow in a PLC" [];
                    Demo.feed_entry "CVE-2024-0002" "Default password on an HMI" []] ].

(** The loop over [pages] with the oracle down. *)
Definition finish : state pyval :=
  snd (run_continuous pyval (fun v => v) Demo.oracle_down Demo.clock
         Demo.loads Demo.strip Demo.format pages start).

(** A stored item without its ["timestamp"]. *)
Definition item_without_timestamp : pyval :=
  PyDict [ ("cve_id", PyStr "CVE-2024-0001");
           ("cvss_score", PyNum (75 # 10));
           ("description", PyStr "Overflow in a PLC");
           ("ai_insight", PyStr "first");
           ("ot_keywords_found", PyList [PyStr "PLC"]) ].

End Examples.

(* ===================================================================== *)
(** ** cve_analyzer.py: the relevance filter on arbitrary text *)
(* ===================================================================== *)

Module Unicode.

(** A Python [str]: the sequence of its code points. *)
Definition ustr : Type := list N.

(** The code points of a string literal of the source. *)
Definition codepoints (s : string) : ustr :=
  map N_of_ascii (list_ascii_of_string s).

(** [s.startswith(p)] *)
Fixpoint startswith (p s : ustr) : bool :=
  match p, s with
  | [], _ => true
  | _ :: _, [] => false
  | a :: p', b :: s' => N.eqb a b && startswith p' s'
  end.

(** [needle in hay] on two strings: substring search. *)
Fixpoint contains (needle hay : ustr) : bool :=
  match hay with
  | [] => startswith needle hay
  | _ :: rest => startswith needle hay || contains needle rest
  end.

Section WithLower.

(** [str.lower], whatever it does. *)
Variable str_lower : ustr -> ustr.

(** [is_ot_related] *)
Definition is_ot_related (description : ustr) : bool :=
  let description_lower := str_lower description in
  let keywords_lower := map (fun k => str_lower (codepoints k)) ot_keywords in
  existsb (fun keyword => contains keyword description_lower) keywords_lower.

(** [[k for k in self.ot_keywords if k.lower() in description.lower()]] *)
Definition found_keywords (description : ustr) : list string :=
  filter (fun k => contains (str_lower (codepoints k)) (str_lower description))
         ot_keywords.

End WithLower.

(** All code points are below 128. *)
Definition is_ascii (s : ustr) : bool := forallb (fun c => c <? 128)%N s.

(** What [str.lower] does to one character of ASCII text. *)
Definition lower_cp (c : N) : N :=
  if ((65 <=? c) && (c <=? 90))%N then (c + 32)%N else c.

(** What [str.lower] does to ASCII text. *)
Definition ascii_lower (s : ustr) : ustr := map lower_cp s.

(** The contract of [str.lower] the statements on ASCII text rest on: on
    ASCII text it moves 'A'..'Z' to 'a'..'z' and nothing else. *)
Definition lowers_ascii (str_lower : ustr -> ustr) : Prop :=
  forall s, is_ascii s = true -> str_lower s = ascii_lower s.

(** A capital ASCII letter. *)
Definition is_capital (c : N) : bool := ((65 <=? c) && (c <=? 90))%N.

(** Two characters are the same, or one is a capital ASCII letter and the
    other the small letter of it. *)
Definition same_letter (a b : N) : bool :=
  (a =? b)%N || (is_capital a && (b =? a + 32)%N)
             || (is_capital b && (a =? b + 32)%N).

(** Two texts are the same up to the case of their ASCII letters. *)
Fixpoint same_up_to_case (s t : ustr) : bool :=
  match s, t with
  | [], [] => true
  | a :: s', b :: t' => same_letter a b && same_up_to_case s' t'
  | _, _ => false
  end.

(** The lowered keyword is a contiguous piece of the lowered text. *)
Definition occurs_lowered (str_lower : ustr -> ustr) (k : string)
    (text : ustr) : Prop :=
  exists pre post,
    str_lower text = (pre ++ str_lower (codepoints k) ++ post)%list.

(** Some contiguous piece of the text is the keyword up to the case of
    letters. *)
Definition occurs_up_to_case (k : string) (text : ustr) : Prop :=
  exists pre mid post,
    text = (pre ++ mid ++ post)%list /\
    same_up_to_case mid (codepoints k) = true.

End Unicode.

(* ===================================================================== *)
(** * Facts *)
(* ===================================================================== *)

(** ** Strings *)

Lemma append_empty_r (s : string) : s ++ "" = s.
Proof. induction s as [|c s IH]; simpl; [reflexivity | now rewrite IH]. Qed.

Lemma append_assoc (a b c : string) : (a ++ b) ++ c = a ++ b ++ c.
Proof. induction a as [|x a IH]; simpl; [reflexivity | now rewrite IH]. Qed.

Lemma lower_append (a b : string) : lower (a ++ b) = lower a ++ lower b.
Proof. induction a as [|x a IH]; simpl; [reflexivity | now rewrite IH]. Qed.

Lemma lower_length (s : string) : String.length (lower s) = String.length s.
Proof. induction s as [|c s IH]; simpl; [reflexivity | now rewrite IH]. Qed.

Lemma startswith_spec (p s : string) :
  startswith p s = true <-> exists rest, s = p ++ rest.
Proof.
  revert s; induction p as [|a p IH]; intros s; simpl.
  - split; [intros _; now exists s | reflexivity].
  - destruct s as [|b s].
    + split; [discriminate | intros [r Hr]; discriminate].
    + rewrite andb_true_iff, Ascii.eqb_eq, IH. split.
      * intros [-> [r ->]]. now exists r.
      * intros [r Hr]. injection Hr as -> ->. split; [reflexivity | now exists r].
Qed.

(** [str_in] decides "occurs as a contiguous substring". *)
Lemma str_in_spec (needle hay : string) :
  str_in needle hay = true <-> exists pre post, hay = pre ++ needle ++ post.
Proof.
  induction hay as [|c hay IH].
  - cbn [str_in]. rewrite startswith_spec. split.
    + intros [r Hr]. now exists "", r.
    + intros [pre [post H]]. destruct pre; [now exists post | discriminate].
  - cbn [str_in]. rewrite orb_true_iff, startswith_spec, IH. split.
    + intros [[r Hr] | [pre [post H]]].
      * now exists "", r.
      * exists (String c pre), post. simpl. now rewrite H.
    + intros [pre [post H]]. destruct pre as [|x pre].
      * left. now exists post.
      * right. simpl in H. injection H as _ H. now exists pre, post.
Qed.

(** Splitting a lowered string splits the original at the same place. *)
Lemma lower_eq_append (s a b : string) :
  lower s = a ++ b ->
  exists s1 s2, s = s1 ++ s2 /\ lower s1 = a /\ lower s2 = b.
Proof.
  revert s; induction a as [|x a IH]; intros s H.
  - exists "", s. simpl in *. auto.
  - destruct s as [|c s]; [discriminate|].
    simpl in H. injection H as Hc H.
    destruct (IH _ H) as [s1 [s2 [-> [H1 H2]]]].
    exists (String c s1), s2. simpl. rewrite Hc, H1. auto.
Qed.

Lemma str_take_short (n : nat) (s : string) :
  String.length s <= n -> str_take n s = s.
Proof.
  revert s; induction n as [|n IH]; intros [|c s] H; simpl in *;
    try reflexivity; try lia.
  now rewrite IH by lia.
Qed.

Lemma str_take_length (n : nat) (s : string) :
  String.length (str_take n s) = Nat.min n (String.length s).
Proof.
  revert s; induction n as [|n IH]; intros [|c s]; simpl; auto.
Qed.

Lemma py_eq_str (s t : string) : py_eq (PyStr s) (PyStr t) = String.eqb s t.
Proof. reflexivity. Qed.

Lemma py_eq_str_l (s : string) (v : pyval) :
  py_eq (PyStr s) v = true <-> v = PyStr s.
Proof.
  destruct v; simpl; try (split; [discriminate | intros H; discriminate H]).
  rewrite String.eqb_eq. split; [now intros -> | now intros [= ->]].
Qed.

Lemma py_eq_str_r (s : string) (v : pyval) :
  py_eq v (PyStr s) = true <-> v = PyStr s.
Proof.
  destruct v; simpl; try (split; [discriminate | intros H; discriminate H]).
  rewrite String.eqb_eq. split; [now intros -> | now intros [= ->]].
Qed.


(** ** The relevance filter *)

(** The test of the comprehension decides [occurs_ci]. *)
Lemma keyword_test_spec (k text : string) :
  str_in (lower k) (lower text) = true <-> occurs_ci k text.
Proof.
  rewrite str_in_spec. unfold occurs_ci. split.
  - intros [p [q H]].
    destruct (lower_eq_append _ _ _ H) as [pre [tl [-> [_ Htl]]]].
    destruct (lower_eq_append _ _ _ Htl) as [mid [post [-> [Hmid _]]]].
    now exists pre, mid, post.
  - intros [pre [mid [post [-> Hmid]]]].
    exists (lower pre), (lower post).
    now rewrite !lower_append, Hmid.
Qed.

Lemma subsequence_In {A : Type} (l m : list A) (x : A) :
  subsequence l m -> In x l -> In x m.
Proof.
  induction 1 as [|y l m _ IH|y l m _ IH]; simpl; intuition.
Qed.

Lemma subsequence_filter {A : Type} (f : A -> bool) (m : list A) :
  subsequence (filter f m) m.
Proof.
  induction m as [|x m IH]; simpl.
  - constructor.
  - destruct (f x); now constructor.
Qed.

(** In a list without repetition, a subsequence is determined by its
    elements. *)
Lemma subsequence_unique {A : Type} (m : list A) :
  NoDup m ->
  forall l1 l2, subsequence l1 m -> subsequence l2 m ->
  (forall x, In x l1 <-> In x l2) -> l1 = l2.
Proof.
  induction 1 as [|x m Hx Hm IH]; intros l1 l2 H1 H2 Hsame.
  - inversion H1; inversion H2; reflexivity.
  - inversion H1 as [|? ? ? S1|? k1 ? S1]; inversion H2 as [|? ? ? S2|? k2 ? S2]; subst.
    + now apply IH.
    + exfalso. apply Hx. apply (subsequence_In l1 m); [assumption|].
      apply Hsame. now left.
    + exfalso. apply Hx. apply (subsequence_In l2 m); [assumption|].
      apply Hsame. now left.
    + f_equal. apply IH; try assumption.
      intros y. split; intros Hy.
      * destruct (proj1 (Hsame y) (or_intror Hy)) as [->|]; [|assumption].
        exfalso. apply Hx. now apply (subsequence_In k1 m).
      * destruct (proj2 (Hsame y) (or_intror Hy)) as [->|]; [|assumption].
        exfalso. apply Hx. now apply (subsequence_In k2 m).
Qed.

Lemma ot_keywords_NoDup : NoDup ot_keywords.
Proof.
  unfold ot_keywords.
  repeat (constructor;
          [ simpl; intros H;
            repeat (destruct H as [H|H]; [discriminate H|]); exact H | ]).
  constructor.
Qed.

Lemma found_keywords_In (text k : string) :
  In k (found_keywords text) <-> In k ot_keywords /\ occurs_ci k text.
Proof.
  unfold found_keywords. now rewrite filter_In, keyword_test_spec.
Qed.

(** [is_ot_related] is true exactly when the comprehension finds a term. *)
Lemma is_ot_related_found (text : string) :
  is_ot_related text = true <-> found_keywords text <> [].
Proof.
  unfold is_ot_related, found_keywords.
  rewrite existsb_exists. split.
  - intros [kl [Hin Hk]]. apply in_map_iff in Hin as [k [<- Hin]].
    intros Hnil.
    assert (Hf : In k (filter (fun k => str_in (lower k) (lower text)) ot_keywords))
      by (apply filter_In; auto).
    rewrite Hnil in Hf. exact Hf.
  - intros Hne.
    destruct (filter (fun k => str_in (lower k) (lower text)) ot_keywords)
      as [|k ks] eqn:E; [congruence|].
    assert (Hf : In k (filter (fun k => str_in (lower k) (lower text)) ot_keywords))
      by (rewrite E; now left).
    apply filter_In in Hf as [Hin Hk].
    exists (lower k). split; [now apply in_map | assumption].
Qed.

(** On the strings of the pipeline: the list the filter computes is the
    one list that keeps terms of the fixed keyword list in the order of
    that list and holds exactly the terms of which some contiguous piece of
    the text is a copy up to [lower]. *)
Lemma found_keywords_exact (text : string) (l : list string) :
  l = found_keywords text <->
  (subsequence l ot_keywords /\
   forall k, In k l <-> (In k ot_keywords /\ occurs_ci k text)).
Proof.
  split.
  - intros ->. split.
    + apply subsequence_filter.
    + intros k. apply found_keywords_In.
  - intros [Hsub Hmem].
    apply (subsequence_unique ot_keywords ot_keywords_NoDup).
    + assumption.
    + apply subsequence_filter.
    + intros k. now rewrite Hmem, found_keywords_In.
Qed.

(** ** The classifier *)

Section AnalyzerFacts.

Variable oracle : list string -> string -> oracle_reply.
Variable now_isoformat : nat -> string.
Variable json_loads : string -> option pyval.
Variable str_strip : string -> string.
Variable py_format : pyval -> string.

Local Abbreviation verdict := (oracle_verdict json_loads str_strip).
Local Abbreviation analyze :=
  (analyze_with_llm oracle now_isoformat json_loads str_strip py_format).
Local Abbreviation batch :=
  (batch_analyze oracle now_isoformat json_loads str_strip py_format).
Local Abbreviation threat_of := (threat_of now_isoformat).
Local Abbreviation prompt_for := (prompt_for py_format).
Local Abbreviation called := (called py_format).
Local Abbreviation called_and_stamped := (called_and_stamped py_format).

(** A record without a matching term: nothing happens. *)
Lemma analyze_unmatched (cve : dict) (id : pyval) (text : string) (w : world) :
  dict_lookup "description" cve = Some (PyStr text) ->
  dict_lookup "cve_id" cve = Some id ->
  found_keywords text = [] ->
  analyze cve w = (Ok None, w).
Proof.
  intros Hd Hi Hf. unfold analyze_with_llm.
  now rewrite Hd, Hi, Hf.
Qed.

(** A record with a matching term: one oracle call, then the three
    branches. *)
Lemma analyze_matched (cve : dict) (id : pyval) (text : string) (w : world) :
  dict_lookup "description" cve = Some (PyStr text) ->
  dict_lookup "cve_id" cve = Some id ->
  found_keywords text <> [] ->
  analyze cve w =
    match verdict (oracle (oracle_calls w) (prompt_for cve id text)) with
    | Ok (Some insight) =>
        (Ok (Some (threat_of cve id text insight w)),
         called_and_stamped cve id text w)
    | Ok None => (Ok None, called cve id text w)
    | Raise _ =>
        (Ok (Some (threat_of cve id text (PyStr fallback_insight) w)),
         called_and_stamped cve id text w)
    end.
Proof.
  intros Hd Hi Hf. unfold analyze_with_llm.
  rewrite Hd, Hi.
  destruct (found_keywords text) as [|k ks] eqn:E; [congruence|].
  unfold call_oracle, read_clock, Analyzer.prompt_for, Analyzer.threat_of,
    Analyzer.called, Analyzer.called_and_stamped. cbn [oracle_calls clock_reads].
  rewrite E.
  destruct (oracle_verdict json_loads str_strip (oracle _ _)) as [[insight|]|e];
    reflexivity.
Qed.

Lemma batch_single (cve : dict) (w : world) :
  batch [cve] w =
    match analyze cve w with
    | (Raise e, w') => (Raise e, w')
    | (Ok None, w') => (Ok [], w')
    | (Ok (Some threat), w') => (Ok [threat], w')
    end.
Proof.
  unfold batch_analyze. cbn [batch_analyze_from].
  destruct (analyze cve w) as [[[t|]|e] w']; reflexivity.
Qed.

(** Whatever the branch, a threat carries the score the analyzer read
    from the record. *)
Lemma analyze_score (cve : dict) (w w' : world) (t : OTThreat) :
  analyze cve w = (Ok (Some t), w') ->
  cvss_score t = dict_get cve "cvss_score" (PyNum 0).
Proof.
  unfold analyze_with_llm.
  destruct (dict_lookup "description" cve) as [dv|]; [|discriminate].
  destruct (dict_lookup "cve_id" cve) as [id|]; [|discriminate].
  destruct dv as [| | |text| |]; try discriminate.
  destruct (found_keywords text); [discriminate|].
  unfold call_oracle, read_clock.
  destruct (oracle_verdict _ _ _) as [[insight|]|e]; intros [= <- _];
    reflexivity.
Qed.

(** Any exception inside the [try] ends in the fallback threat; a parsed
    value that is not an object is one such case. *)
Lemma analyze_not_an_object (cve : dict) (id : pyval) (text out : string)
    (v : pyval) (w : world) :
  dict_lookup "description" cve = Some (PyStr text) ->
  dict_lookup "cve_id" cve = Some id ->
  found_keywords text <> [] ->
  oracle (oracle_calls w) (prompt_for cve id text) = OracleText out ->
  json_loads (str_strip out) = Some v ->
  (forall d, v <> PyDict d) ->
  analyze cve w =
    (Ok (Some (threat_of cve id text (PyStr fallback_insight) w)),
     called_and_stamped cve id text w).
Proof.
  intros Hd Hi Hf Ho Hp Hv.
  rewrite (analyze_matched cve id text w Hd Hi Hf), Ho.
  simpl. rewrite Hp.
  destruct v; try reflexivity. now destruct (Hv d).
Qed.

(** A text that does not parse ends in the fallback threat. *)
Lemma fail_open_helper (cve : dict) (id : pyval) (text out : string)
    (w : world) :
  dict_lookup "description" cve = Some (PyStr text) ->
  dict_lookup "cve_id" cve = Some id ->
  found_keywords text <> [] ->
  oracle (oracle_calls w) (prompt_for cve id text) = OracleText out ->
  json_loads (str_strip out) = None ->
  exists t w',
    analyze cve w = (Ok (Some t), w') /\
    ai_insight t = PyStr fallback_insight.
Proof.
  intros Hd Hi Hf Ho Hp.
  exists (threat_of cve id text (PyStr fallback_insight) w),
         (called_and_stamped cve id text w).
  split; [|reflexivity].
  rewrite (analyze_matched cve id text w Hd Hi Hf), Ho.
  simpl. now rewrite Hp.
Qed.

(** C1.  For every record whose description matches at least one keyword:
    if the oracle call raises, or the text it returns does not parse as
    JSON, or it parses to something that is not an object (so that reading
    the flag raises), [analyze_with_llm] still returns a threat (and
    [batch_analyze] on that record alone returns exactly that one threat)
    whose [ai_insight] is the constant [fallback_insight] and whose
    [ot_keywords_found] is the output of the keyword filter. *)
Theorem fail_open_on_oracle_error (cve : dict) (id : pyval) (text : string)
    (w : world) :
  dict_lookup "description" cve = Some (PyStr text) ->
  dict_lookup "cve_id" cve = Some id ->
  found_keywords text <> [] ->
  (oracle (oracle_calls w) (prompt_for cve id text) = OracleRaises \/
   (exists out, oracle (oracle_calls w) (prompt_for cve id text) = OracleText out
                /\ json_loads (str_strip out) = None) \/
   (exists out v, oracle (oracle_calls w) (prompt_for cve id text) = OracleText out
                  /\ json_loads (str_strip out) = Some v
                  /\ forall d, v <> PyDict d)) ->
  exists t w',
    analyze cve w = (Ok (Some t), w') /\
    batch [cve] w = (Ok [t], w') /\
    ai_insight t = PyStr fallback_insight /\
    ot_keywords_found t = PyList (map PyStr (found_keywords text)).
Proof.
  intros Hd Hi Hf Herr.
  exists (threat_of cve id text (PyStr fallback_insight) w),
         (called_and_stamped cve id text w).
  assert (Ha : analyze cve w =
               (Ok (Some (threat_of cve id text (PyStr fallback_insight) w)),
                called_and_stamped cve id text w)).
  { destruct Herr as [Ho | [[out [Ho Hparse]] | [out [v [Ho [Hparse Hv]]]]]].
    - rewrite (analyze_matched cve id text w Hd Hi Hf), Ho. reflexivity.
    - rewrite (analyze_matched cve id text w Hd Hi Hf), Ho. simpl.
      now rewrite Hparse.
    - now apply (analyze_not_an_object cve id text out v w). }
  repeat split.
  - exact Ha.
  - now rewrite batch_single, Ha.
Qed.

(** C5.  For every record whose description matches no keyword,
    [analyze_with_llm] returns [None] and leaves the world as it was: no
    prompt is added to the oracle's log. *)
Theorem no_match_no_oracle_call (cve : dict) (id : pyval) (text : string)
    (w : world) :
  dict_lookup "description" cve = Some (PyStr text) ->
  dict_lookup "cve_id" cve = Some id ->
  found_keywords text = [] ->
  analyze cve w = (Ok None, w) /\
  oracle_calls (snd (analyze cve w)) = oracle_calls w /\
  batch [cve] w = (Ok [], w).
Proof.
  intros Hd Hi Hf.
  pose proof (analyze_unmatched cve id text w Hd Hi Hf) as Ha.
  repeat split.
  - exact Ha.
  - now rewrite Ha.
  - now rewrite batch_single, Ha.
Qed.

(** C8.  For every keyword-matched record, if the oracle's text parses
    to an object whose relevance flag is [false], [analyze_with_llm]
    returns [None] although the oracle was called. *)
Theorem oracle_verdict_overrides_filter (cve : dict) (id : pyval)
    (text out : string) (response : dict) (w : world) :
  dict_lookup "description" cve = Some (PyStr text) ->
  dict_lookup "cve_id" cve = Some id ->
  found_keywords text <> [] ->
  oracle (oracle_calls w) (prompt_for cve id text) = OracleText out ->
  json_loads (str_strip out) = Some (PyDict response) ->
  dict_lookup "is_ot_related" response = Some (PyBool false) ->
  analyze cve w = (Ok None, called cve id text w) /\
  batch [cve] w = (Ok [], called cve id text w).
Proof.
  intros Hd Hi Hf Ho Hp Hflag.
  assert (Ha : analyze cve w = (Ok None, called cve id text w)).
  { rewrite (analyze_matched cve id text w Hd Hi Hf), Ho.
    simpl. rewrite Hp. simpl.
    unfold dict_get. now rewrite Hflag. }
  split; [exact Ha | now rewrite batch_single, Ha].
Qed.

(** A parsed object without a truthy relevance flag ends in the
    [else: return None]. *)
Lemma analyze_not_relevant (cve : dict) (id : pyval) (text out : string)
    (response : dict) (w : world) :
  dict_lookup "description" cve = Some (PyStr text) ->
  dict_lookup "cve_id" cve = Some id ->
  found_keywords text <> [] ->
  oracle (oracle_calls w) (prompt_for cve id text) = OracleText out ->
  json_loads (str_strip out) = Some (PyDict response) ->
  py_truthy (dict_get response "is_ot_related" (PyBool false)) = false ->
  analyze cve w = (Ok None, called cve id text w).
Proof.
  intros Hd Hi Hf Ho Hp Hflag.
  rewrite (analyze_matched cve id text w Hd Hi Hf), Ho.
  simpl. rewrite Hp. simpl. now rewrite Hflag.
Qed.

(** A parsed object with a truthy relevance flag is confirmed, with the
    oracle's explanation or the placeholder. *)
Lemma analyze_relevant (cve : dict) (id : pyval) (text out : string)
    (response : dict) (w : world) :
  dict_lookup "description" cve = Some (PyStr text) ->
  dict_lookup "cve_id" cve = Some id ->
  found_keywords text <> [] ->
  oracle (oracle_calls w) (prompt_for cve id text) = OracleText out ->
  json_loads (str_strip out) = Some (PyDict response) ->
  py_truthy (dict_get response "is_ot_related" (PyBool false)) = true ->
  analyze cve w =
    (Ok (Some (threat_of cve id text
                 (dict_get response "risk_explanation" (PyStr no_insight)) w)),
     called_and_stamped cve id text w).
Proof.
  intros Hd Hi Hf Ho Hp Hflag.
  rewrite (analyze_matched cve id text w Hd Hi Hf), Ho.
  simpl. rewrite Hp. simpl. now rewrite Hflag.
Qed.

(** The score of a threat is the value stored under ["cvss_score"]. *)
Lemma analyze_score_present (cve : dict) (w w' : world) (t : OTThreat)
    (score : pyval) :
  dict_lookup "cvss_score" cve = Some score ->
  analyze cve w = (Ok (Some t), w') ->
  cvss_score t = score.
Proof.
  intros Hs Ha. rewrite (analyze_score cve w w' t Ha).
  unfold dict_get. now rewrite Hs.
Qed.

(** The default 0.0 applies only when the key is absent. *)
Lemma analyze_score_absent (cve : dict) (w w' : world) (t : OTThreat) :
  dict_lookup "cvss_score" cve = None ->
  analyze cve w = (Ok (Some t), w') ->
  cvss_score t = PyNum 0.
Proof.
  intros Hs Ha. rewrite (analyze_score cve w w' t Ha).
  unfold dict_get. now rewrite Hs.
Qed.

(** C9 (amended).  For a record whose description is the Siemens S7
    sentence and whose score is 9.8: the matched terms are PLC, Siemens
    and OT, in the order of the fixed list (OT matches inside the word
    remote); and when the oracle's answer parses to an object with a true
    relevance flag, the threat carries the score 9.8, the whole
    description and these three terms. *)
Theorem siemens_scenario (cve : dict) (id : pyval) (out : string)
    (response : dict) (w : world) :
  dict_lookup "description" cve = Some (PyStr Demo.siemens_description) ->
  dict_lookup "cve_id" cve = Some id ->
  dict_lookup "cvss_score" cve = Some (PyNum (98 # 10)) ->
  oracle (oracle_calls w) (prompt_for cve id Demo.siemens_description)
    = OracleText out ->
  json_loads (str_strip out) = Some (PyDict response) ->
  py_truthy (dict_get response "is_ot_related" (PyBool false)) = true ->
  found_keywords Demo.siemens_description = ["PLC"; "Siemens"; "OT"] /\
  exists t w',
    analyze cve w = (Ok (Some t), w') /\
    cvss_score t = PyNum (98 # 10) /\
    description t = PyStr Demo.siemens_description /\
    ot_keywords_found t = PyList [PyStr "PLC"; PyStr "Siemens"; PyStr "OT"].
Proof.
  intros Hd Hi Hs Ho Hp Hflag.
  assert (Hfound : found_keywords Demo.siemens_description
                   = ["PLC"; "Siemens"; "OT"]) by reflexivity.
  split; [exact Hfound|].
  eexists. eexists. split.
  - apply (analyze_relevant cve id _ out response w Hd Hi); try assumption.
    rewrite Hfound. discriminate.
  - unfold Analyzer.threat_of. cbn [cvss_score description ot_keywords_found].
    unfold dict_get. rewrite Hs, Hfound. repeat split.
Qed.

End AnalyzerFacts.

Lemma fail_open_on_oracle_error_witness :
  exists t w',
    analyze_with_llm Demo.oracle_down Demo.clock Demo.loads Demo.strip
      Demo.format
      (Demo.candidate "CVE-2024-0001" "Overflow in a PLC" (PyNum (75 # 10)))
      Demo.fresh_world = (Ok (Some t), w') /\
    batch_analyze Demo.oracle_down Demo.clock Demo.loads Demo.strip
      Demo.format
      [Demo.candidate "CVE-2024-0001" "Overflow in a PLC" (PyNum (75 # 10))]
      Demo.fresh_world = (Ok [t], w') /\
    ai_insight t = PyStr fallback_insight /\
    ot_keywords_found t
      = PyList (map PyStr (found_keywords "Overflow in a PLC")).
Proof.
  apply (fail_open_on_oracle_error Demo.oracle_down Demo.clock Demo.loads
           Demo.strip Demo.format
           (Demo.candidate "CVE-2024-0001" "Overflow in a PLC" (PyNum (75 # 10)))
           (PyStr "CVE-2024-0001") "Overflow in a PLC" Demo.fresh_world).
  - reflexivity.
  - reflexivity.
  - vm_compute. discriminate.
  - left. reflexivity.
Defined.

Lemma no_match_no_oracle_call_witness :
  analyze_with_llm (Demo.oracle_says Demo.text_relevant) Demo.clock Demo.loads
    Demo.strip Demo.format
    (Demo.candidate "CVE-2024-0002" "SQL injection in a web shop" PyNone)
    Demo.fresh_world = (Ok None, Demo.fresh_world) /\
  oracle_calls
    (snd (analyze_with_llm (Demo.oracle_says Demo.text_relevant) Demo.clock
            Demo.loads Demo.strip Demo.format
            (Demo.candidate "CVE-2024-0002" "SQL injection in a web shop" PyNone)
            Demo.fresh_world)) = oracle_calls Demo.fresh_world /\
  batch_analyze (Demo.oracle_says Demo.text_relevant) Demo.clock Demo.loads
    Demo.strip Demo.format
    [Demo.candidate "CVE-2024-0002" "SQL injection in a web shop" PyNone]
    Demo.fresh_world = (Ok [], Demo.fresh_world).
Proof.
  apply (no_match_no_oracle_call (Demo.oracle_says Demo.text_relevant)
           Demo.clock Demo.loads Demo.strip Demo.format
           (Demo.candidate "CVE-2024-0002" "SQL injection in a web shop" PyNone)
           (PyStr "CVE-2024-0002") "SQL injection in a web shop"
           Demo.fresh_world).
  - reflexivity.
  - reflexivity.
  - vm_compute. reflexivity.
Defined.

Lemma oracle_verdict_overrides_filter_witness :
  analyze_with_llm (Demo.oracle_says Demo.text_not_relevant) Demo.clock
    Demo.loads Demo.strip Demo.format
    (Demo.candidate "CVE-2024-0001" "Overflow in a PLC" (PyNum (75 # 10)))
    Demo.fresh_world
  = (Ok None,
     called Demo.format
       (Demo.candidate "CVE-2024-0001" "Overflow in a PLC" (PyNum (75 # 10)))
       (PyStr "CVE-2024-0001") "Overflow in a PLC" Demo.fresh_world) /\
  batch_analyze (Demo.oracle_says Demo.text_not_relevant) Demo.clock
    Demo.loads Demo.strip Demo.format
    [Demo.candidate "CVE-2024-0001" "Overflow in a PLC" (PyNum (75 # 10))]
    Demo.fresh_world
  = (Ok [],
     called Demo.format
       (Demo.candidate "CVE-2024-0001" "Overflow in a PLC" (PyNum (75 # 10)))
       (PyStr "CVE-2024-0001") "Overflow in a PLC" Demo.fresh_world).
Proof.
  apply (oracle_verdict_overrides_filter (Demo.oracle_says Demo.text_not_relevant)
           Demo.clock Demo.loads Demo.strip Demo.format
           (Demo.candidate "CVE-2024-0001" "Overflow in a PLC" (PyNum (75 # 10)))
           (PyStr "CVE-2024-0001") "Overflow in a PLC" Demo.text_not_relevant
           [("is_ot_related", PyBool false)] Demo.fresh_world).
  - reflexivity.
  - reflexivity.
  - vm_compute. discriminate.
  - reflexivity.
  - vm_compute. reflexivity.
  - reflexivity.
Defined.

(** The matched terms of the Siemens S7 sentence are not Siemens, PLC. *)
Lemma siemens_scenario_counterexample :
  found_keywords
    "A buffer overflow in the Siemens S7 PLC firmware allows remote code execution"
  <> ["Siemens"; "PLC"].
Proof. vm_compute. discriminate. Qed.

Lemma siemens_scenario_witness :
  found_keywords Demo.siemens_description = ["PLC"; "Siemens"; "OT"] /\
  exists t w',
    analyze_with_llm (Demo.oracle_says Demo.text_relevant) Demo.clock
      Demo.loads Demo.strip Demo.format
      (Demo.candidate "CVE-2024-0003" Demo.siemens_description (PyNum (98 # 10)))
      Demo.fresh_world = (Ok (Some t), w') /\
    cvss_score t = PyNum (98 # 10) /\
    description t = PyStr Demo.siemens_description /\
    ot_keywords_found t = PyList [PyStr "PLC"; PyStr "Siemens"; PyStr "OT"].
Proof.
  apply (siemens_scenario (Demo.oracle_says Demo.text_relevant) Demo.clock
           Demo.loads Demo.strip Demo.format
           (Demo.candidate "CVE-2024-0003" Demo.siemens_description
              (PyNum (98 # 10)))
           (PyStr "CVE-2024-0003") Demo.text_relevant
           [("is_ot_related", PyBool true);
            ("risk_explanation", PyStr "Remote takeover of the controller")]
           Demo.fresh_world).
  - reflexivity.
  - reflexivity.
  - reflexivity.
  - reflexivity.
  - vm_compute. reflexivity.
  - reflexivity.
Defined.

(** C10 (amended).  For every keyword-matched record, if the oracle's text
    parses to a JSON object that has no relevance flag, [analyze_with_llm]
    returns [None]; had the same text failed to parse, the fallback threat
    would have been returned. *)
Theorem flagless_object_fails_closed
    (oracle : list string -> string -> oracle_reply)
    (now_isoformat : nat -> string) (json_loads : string -> option pyval)
    (str_strip : string -> string) (py_format : pyval -> string)
    (cve : dict) (id : pyval) (text out : string) (response : dict)
    (w : world) :
  dict_lookup "description" cve = Some (PyStr text) ->
  dict_lookup "cve_id" cve = Some id ->
  found_keywords text <> [] ->
  oracle (oracle_calls w) (prompt_for py_format cve id text) = OracleText out ->
  json_loads (str_strip out) = Some (PyDict response) ->
  dict_lookup "is_ot_related" response = None ->
  analyze_with_llm oracle now_isoformat json_loads str_strip py_format cve w
    = (Ok None, called py_format cve id text w) /\
  forall json_loads' : string -> option pyval,
    json_loads' (str_strip out) = None ->
    exists t w',
      analyze_with_llm oracle now_isoformat json_loads' str_strip py_format cve w
        = (Ok (Some t), w') /\
      ai_insight t = PyStr fallback_insight.
Proof.
  intros Hd Hi Hf Ho Hp Hflag. split.
  - apply (analyze_not_relevant oracle now_isoformat json_loads str_strip
             py_format cve id text out response w); try assumption.
    unfold dict_get. now rewrite Hflag.
  - intros loads' Hnone.
    destruct (fail_open_helper oracle now_isoformat loads' str_strip py_format
                cve id text out w Hd Hi Hf Ho Hnone) as [t [w' [Ha Hins]]].
    now exists t, w'.
Qed.

Lemma flagless_object_fails_closed_witness :
  analyze_with_llm (Demo.oracle_says "{}") Demo.clock Demo.loads Demo.strip
    Demo.format
    (Demo.candidate "CVE-2024-0001" "Overflow in a PLC" (PyNum (75 # 10)))
    Demo.fresh_world
  = (Ok None,
     called Demo.format
       (Demo.candidate "CVE-2024-0001" "Overflow in a PLC" (PyNum (75 # 10)))
       (PyStr "CVE-2024-0001") "Overflow in a PLC" Demo.fresh_world) /\
  forall json_loads' : string -> option pyval,
    json_loads' (Demo.strip "{}") = None ->
    exists t w',
      analyze_with_llm (Demo.oracle_says "{}") Demo.clock json_loads'
        Demo.strip Demo.format
        (Demo.candidate "CVE-2024-0001" "Overflow in a PLC" (PyNum (75 # 10)))
        Demo.fresh_world = (Ok (Some t), w') /\
      ai_insight t = PyStr fallback_insight.
Proof.
  apply (flagless_object_fails_closed (Demo.oracle_says "{}") Demo.clock
           Demo.loads Demo.strip Demo.format
           (Demo.candidate "CVE-2024-0001" "Overflow in a PLC" (PyNum (75 # 10)))
           (PyStr "CVE-2024-0001") "Overflow in a PLC" "{}" [] Demo.fresh_world).
  - reflexivity.
  - reflexivity.
  - vm_compute. discriminate.
  - reflexivity.
  - vm_compute. reflexivity.
  - reflexivity.
Defined.

(** The oracle answers with the JSON text of an empty array: it parses, it
    carries no relevance flag, and the record is reported through the
    fallback branch all the same. *)
Lemma flagless_json_counterexample :
  Demo.loads (Demo.strip "[]") = Some (PyList []) /\
  found_keywords "Overflow in a PLC" = ["PLC"] /\
  analyze_with_llm (Demo.oracle_says "[]") Demo.clock Demo.loads Demo.strip
    Demo.format
    (Demo.candidate "CVE-2024-0001" "Overflow in a PLC" (PyNum (75 # 10)))
    Demo.fresh_world
  = (Ok (Some (mkOTThreat (PyStr "CVE-2024-0001") (PyNum (75 # 10))
                 (PyStr "Overflow in a PLC") (PyStr fallback_insight)
                 (PyList [PyStr "PLC"]) (PyStr (Demo.clock 0)))),
     called_and_stamped Demo.format
       (Demo.candidate "CVE-2024-0001" "Overflow in a PLC" (PyNum (75 # 10)))
       (PyStr "CVE-2024-0001") "Overflow in a PLC" Demo.fresh_world).
Proof. repeat split. Qed.

(** ** The fetcher *)

(** What [visit] returns as fresh is the seven-key record built from the
    entry, with the score stored under its key whatever it is. *)
Lemma visit_fresh_shape (vulnerability : pyval) (processed : list pyval)
    (id : pyval) (info : dict) :
  visit vulnerability processed = Ok (Fresh id info) ->
  dict_lookup "cve_id" info = Some id /\
  (exists score, dict_lookup "cvss_score" info = Some score) /\
  py_hashable id = true /\
  existsb (fun y => py_eq y id) processed = false.
Proof.
  unfold visit.
  destruct vulnerability as [| | | | |d]; try discriminate. cbn [py_get bind].
  destruct (dict_get d "cve" (PyDict [])) as [| | | | |cd]; try discriminate.
  cbn [py_get bind]. unfold set_contains.
  destruct (py_hashable (dict_get cd "id" (PyStr ""))) eqn:Hh;
    [|discriminate]. cbn [bind].
  destruct (existsb _ processed) eqn:Hseen; [discriminate|].
  destruct (py_index0 _) as [fd|]; [|discriminate]. cbn [bind].
  destruct fd as [| | | | |fdd]; try discriminate. cbn [py_get bind].
  destruct (extract_score _) as [score|]; [|discriminate]. cbn [bind].
  intros [= <- <-]. cbn. repeat split; try assumption. now exists score.
Qed.

Lemma fetch_never_raises (reply : feed_reply) (self : CVEFetcher) (e : exn) :
  fst (try_fetch reply self) = Raise e ->
  fst (fetch_latest_cves reply self) = [].
Proof.
  unfold fetch_latest_cves.
  destruct (try_fetch reply self) as [[cves|e'] self1]; simpl;
    [discriminate | reflexivity].
Qed.

(** Records returned by the loop keep the score under its key. *)
Lemma fetch_loop_scores (vulnerabilities : list pyval) :
  forall (cves : list dict) (processed : list pyval)
         (cves' : list dict) (processed' : list pyval),
  Forall (fun r => exists score, dict_lookup "cvss_score" r = Some score) cves ->
  fetch_loop vulnerabilities cves processed = (Ok cves', processed') ->
  Forall (fun r => exists score, dict_lookup "cvss_score" r = Some score) cves'.
Proof.
  induction vulnerabilities as [|v vs IH]; intros cves p cves' p' Hall; simpl.
  - now intros [= <- _].
  - destruct (visit v p) as [[|id info]|e] eqn:Hv; [| |discriminate].
    + now apply IH.
    + apply IH. apply Forall_app. split; [assumption|].
      constructor; [|constructor].
      now destruct (visit_fresh_shape v p id info Hv) as [_ [Hs _]].
Qed.

(** The key ["cvss_score"] is present in every record the fetcher
    returns, so the analyzer's default for a missing key never applies to
    them. *)
Lemma fetched_score_key_present (reply : feed_reply) (self : CVEFetcher)
    (r : dict) :
  In r (fst (fetch_latest_cves reply self)) ->
  exists score, dict_lookup "cvss_score" r = Some score.
Proof.
  unfold fetch_latest_cves, try_fetch.
  destruct reply as [| |data]; simpl; try contradiction.
  destruct (bind _ _) as [vs|e]; simpl; [|contradiction].
  destruct (fetch_loop vs [] (processed_cves self)) as [[cves|e] p] eqn:Hl;
    simpl; [|contradiction].
  intros Hin.
  pose proof (fetch_loop_scores vs [] _ cves p (Forall_nil _) Hl) as Hall.
  rewrite Forall_forall in Hall. now apply Hall.
Qed.

(** C2 (the code at the failing input).  A feed entry without a metrics
    block is fetched as a record whose ["cvss_score"] is [None]; every
    threat the analyzer builds from it, also through the fallback branch,
    carries [None] as its score and not the number 0.0. *)
Theorem unscored_record_keeps_None :
  fetch_latest_cves
    (Demo.feed_page [Demo.feed_entry "CVE-2024-0001" "Overflow in a PLC" []])
    new_fetcher
  = ([Demo.unscored_record "CVE-2024-0001" "Overflow in a PLC"],
     mkFetcher [PyStr "CVE-2024-0001"]) /\
  (forall oracle now_isoformat json_loads str_strip py_format w w' t,
     analyze_with_llm oracle now_isoformat json_loads str_strip py_format
       (Demo.unscored_record "CVE-2024-0001" "Overflow in a PLC") w
     = (Ok (Some t), w') ->
     cvss_score t = PyNone /\ cvss_score t <> PyNum 0) /\
  (exists t w',
     analyze_with_llm Demo.oracle_down Demo.clock Demo.loads Demo.strip
       Demo.format (Demo.unscored_record "CVE-2024-0001" "Overflow in a PLC")
       Demo.fresh_world = (Ok (Some t), w') /\
     cvss_score t = PyNone) /\
  (exists t w',
     analyze_with_llm (Demo.oracle_says Demo.text_relevant) Demo.clock
       Demo.loads Demo.strip Demo.format
       (Demo.unscored_record "CVE-2024-0001" "Overflow in a PLC")
       Demo.fresh_world = (Ok (Some t), w') /\
     cvss_score t = PyNone).
Proof.
  split; [vm_compute; reflexivity|]. split; [|split].
  - intros oracle now_isoformat json_loads str_strip py_format w w' t Ha.
    assert (Hs : cvss_score t = PyNone).
    { apply (analyze_score_present oracle now_isoformat json_loads str_strip
               py_format (Demo.unscored_record "CVE-2024-0001" "Overflow in a PLC")
               w w' t PyNone); [reflexivity | exact Ha]. }
    rewrite Hs. split; [reflexivity | discriminate].
  - eexists. eexists. split; [vm_compute; reflexivity | reflexivity].
  - eexists. eexists. split; [vm_compute; reflexivity | reflexivity].
Qed.

(** C6 (the code at the failing input).  The first call reads a page whose
    second entry has no description: the call fails and returns nothing,
    but the first entry's identifier is already in [processed_cves].  The
    second call reads a page with that first entry alone and succeeds, yet
    returns nothing, although the entry was never returned; a fresh
    instance returns it. *)
Theorem failed_call_loses_records :
  let page1 := Demo.feed_page
                 [Demo.feed_entry "CVE-2024-0001" "Overflow in a PLC" [];
                  Demo.entry_without_description "CVE-2024-0002"] in
  let page2 := Demo.feed_page
                 [Demo.feed_entry "CVE-2024-0001" "Overflow in a PLC" []] in
  let after1 := snd (fetch_latest_cves page1 new_fetcher) in
  fst (try_fetch page1 new_fetcher) = Raise IndexError /\
  fst (fetch_latest_cves page1 new_fetcher) = [] /\
  processed_cves after1 = [PyStr "CVE-2024-0001"] /\
  fst (try_fetch page2 after1) = Ok [] /\
  fst (fetch_latest_cves page2 after1) = [] /\
  fst (fetch_many [page1; page2] new_fetcher) = [[]; []] /\
  fst (fetch_latest_cves page2 new_fetcher)
    = [Demo.unscored_record "CVE-2024-0001" "Overflow in a PLC"].
Proof. vm_compute. repeat split. Qed.

Lemma ForallOrdPairs_snoc {A : Type} (R : A -> A -> Prop) (l : list A) (x : A) :
  ForallOrdPairs R l -> Forall (fun a => R a x) l ->
  ForallOrdPairs R (l ++ [x])%list.
Proof.
  induction 1 as [|a l Ha Hl IH]; intros Hx; simpl.
  - constructor; constructor.
  - inversion Hx as [|? ? Hax Hlx]; subst. constructor.
    + apply Forall_app. split; [assumption | now constructor].
    + now apply IH.
Qed.

Lemma not_seen_all_differ (id : pyval) (processed : list pyval) :
  existsb (fun y => py_eq y id) processed = false ->
  forall y, In y processed -> py_eq y id = false.
Proof.
  intros H y Hy. destruct (py_eq y id) eqn:E; [|reflexivity].
  assert (existsb (fun y => py_eq y id) processed = true)
    by (apply existsb_exists; now exists y).
  congruence.
Qed.

(** The loop invariant behind the seen-set: every record returned so far
    (by earlier calls, [prev], or by this one) has its identifier in the
    set, and no two of them share an identifier. *)
Lemma fetch_loop_distinct (prev : list dict) (vulnerabilities : list pyval) :
  forall (cves : list dict) (processed : list pyval)
         (out : result (list dict)) (processed' : list pyval),
  Forall (fun r => In (record_id r) processed) (prev ++ cves)%list ->
  ForallOrdPairs distinct_ids (prev ++ cves)%list ->
  fetch_loop vulnerabilities cves processed = (out, processed') ->
  incl processed processed' /\
  forall cves', out = Ok cves' ->
    Forall (fun r => In (record_id r) processed') (prev ++ cves')%list /\
    ForallOrdPairs distinct_ids (prev ++ cves')%list.
Proof.
  induction vulnerabilities as [|v vs IH]; intros cves p out p' Hin Hd; simpl.
  - intros [= <- <-]. split; [apply incl_refl|]. now intros cves' [= <-].
  - destruct (visit v p) as [[|id info]|e] eqn:Hv.
    + now apply IH.
    + destruct (visit_fresh_shape v p id info Hv) as [Hid [_ [_ Hnew]]].
      assert (Hrid : record_id info = id)
        by (unfold record_id, dict_get; now rewrite Hid).
      intros Hloop.
      destruct (IH (cves ++ [info])%list (id :: p) out p') as [Hincl Hok].
      * rewrite app_assoc. apply Forall_app. split.
        -- eapply Forall_impl; [|exact Hin]. intros r Hr. now right.
        -- constructor; [|constructor]. rewrite Hrid. now left.
      * rewrite app_assoc. apply ForallOrdPairs_snoc; [assumption|].
        eapply Forall_impl; [|exact Hin]. intros r Hr.
        unfold distinct_ids. fold (record_id r). fold (record_id info).
        rewrite Hrid. now apply (not_seen_all_differ id p).
      * exact Hloop.
      * split; [|exact Hok]. intros y Hy. apply Hincl. now right.
    + intros [= <- <-]. split; [apply incl_refl|]. discriminate.
Qed.

(** One call keeps the invariant, whether it succeeds or fails. *)
Lemma fetch_latest_cves_distinct (prev : list dict) (reply : feed_reply)
    (self : CVEFetcher) :
  Forall (fun r => In (record_id r) (processed_cves self)) prev ->
  ForallOrdPairs distinct_ids prev ->
  Forall (fun r => In (record_id r)
                      (processed_cves (snd (fetch_latest_cves reply self))))
         (prev ++ fst (fetch_latest_cves reply self))%list /\
  ForallOrdPairs distinct_ids (prev ++ fst (fetch_latest_cves reply self))%list.
Proof.
  intros Hin Hd. unfold fetch_latest_cves, try_fetch.
  destruct reply as [| |data]; simpl; try (rewrite app_nil_r; now split).
  destruct (bind _ _) as [vs|e]; simpl; [|rewrite app_nil_r; now split].
  destruct (fetch_loop vs [] (processed_cves self)) as [out p'] eqn:Hl.
  destruct (fetch_loop_distinct prev vs [] (processed_cves self) out p')
    as [Hincl Hok]; try (rewrite app_nil_r; assumption); [exact Hl|].
  destruct out as [cves|e]; simpl.
  - now apply Hok.
  - rewrite app_nil_r. split; [|assumption].
    eapply Forall_impl; [|exact Hin]. intros r Hr. now apply Hincl.
Qed.

Lemma fetch_many_distinct (replies : list feed_reply) :
  forall (prev : list dict) (self : CVEFetcher),
  Forall (fun r => In (record_id r) (processed_cves self)) prev ->
  ForallOrdPairs distinct_ids prev ->
  ForallOrdPairs distinct_ids (prev ++ concat (fst (fetch_many replies self)))%list.
Proof.
  induction replies as [|reply rest IH]; intros prev self Hin Hd; simpl.
  - now rewrite app_nil_r.
  - destruct (fetch_latest_cves_distinct prev reply self Hin Hd) as [Hin1 Hd1].
    destruct (fetch_latest_cves reply self) as [cves self1]. simpl in *.
    specialize (IH (prev ++ cves)%list self1 Hin1 Hd1).
    destruct (fetch_many rest self1) as [later self2]. simpl in *.
    now rewrite app_assoc.
Qed.

(** Over any run of calls on one instance, successful or not, no two
    returned records carry the same identifier. *)
Lemma returned_ids_never_repeat (replies : list feed_reply) :
  ForallOrdPairs distinct_ids (concat (fst (fetch_many replies new_fetcher))).
Proof.
  apply (fetch_many_distinct replies [] new_fetcher); constructor.
Qed.

(** ** The threat store *)

Lemma add_batches_concat (batches : list (list OTThreat)) :
  forall store, add_batches store batches = add_threats store (concat batches).
Proof.
  unfold add_batches, add_threats.
  induction batches as [|b bs IH]; intros store; simpl.
  - reflexivity.
  - now rewrite IH, fold_left_app.
Qed.

(** A threat that carries the identifier [s] is compared with a stored
    one exactly as [s] is. *)
Lemma same_id_as (s : string) (t e : OTThreat) :
  has_id s t = true -> py_eq (cve_id e) (cve_id t) = has_id s e.
Proof.
  unfold has_id. intros Ht. apply py_eq_str_r in Ht. now rewrite Ht.
Qed.

Lemma add_threat_present (store : list OTThreat) (t : OTThreat) :
  existsb (fun e => py_eq (cve_id e) (cve_id t)) store = true ->
  add_threat store t = store.
Proof. unfold add_threat. now intros ->. Qed.

Lemma existsb_pointwise {A : Type} (f g : A -> bool) (l : list A) :
  (forall x, f x = g x) -> existsb f l = existsb g l.
Proof.
  intros H. induction l as [|x l IH]; simpl; [reflexivity|].
  now rewrite H, IH.
Qed.

Lemma find_app {A : Type} (f : A -> bool) (l m : list A) :
  find f (l ++ m)%list = match find f l with Some x => Some x | None => find f m end.
Proof.
  induction l as [|x l IH]; simpl; [reflexivity|]. now destruct (f x).
Qed.

Lemma find_some_existsb {A : Type} (f : A -> bool) (l : list A) :
  find f l <> None <-> existsb f l = true.
Proof.
  induction l as [|x l IH]; simpl.
  - split; [congruence | discriminate].
  - destruct (f x); simpl; [split; [reflexivity | discriminate] | exact IH].
Qed.

(** The entry found for [s] after one append is the first one among the
    store followed by the appended threat. *)
Lemma add_threat_find (s : string) (store : list OTThreat) (t : OTThreat) :
  find (has_id s) (add_threat store t) = find (has_id s) (store ++ [t])%list.
Proof.
  unfold add_threat.
  destruct (existsb _ store) eqn:E; [|reflexivity].
  rewrite find_app. simpl.
  destruct (find (has_id s) store) eqn:F; [reflexivity|].
  destruct (has_id s t) eqn:Ht; [|reflexivity].
  exfalso.
  assert (Hex : existsb (has_id s) store = true).
  { rewrite <- E. apply existsb_pointwise.
    intros e. symmetry. now apply same_id_as. }
  apply find_some_existsb in Hex. congruence.
Qed.

Lemma add_threats_find (s : string) (appended : list OTThreat) :
  forall store,
  find (has_id s) (add_threats store appended)
  = find (has_id s) (store ++ appended)%list.
Proof.
  unfold add_threats.
  induction appended as [|t ts IH]; intros store; simpl.
  - now rewrite app_nil_r.
  - rewrite IH, !find_app, add_threat_find, find_app. simpl.
    destruct (find (has_id s) store); [reflexivity|].
    now destruct (has_id s t).
Qed.

(** Appending keeps "at most one entry carries [s]". *)
Lemma add_threat_at_most_one (s : string) (store : list OTThreat) (t : OTThreat) :
  length (filter (has_id s) store) <= 1 ->
  length (filter (has_id s) (add_threat store t)) <= 1.
Proof.
  intros H. unfold add_threat.
  destruct (existsb _ store) eqn:E; [assumption|].
  rewrite filter_app, length_app. simpl.
  destruct (has_id s t) eqn:Ht; simpl; [|lia].
  assert (Hnone : filter (has_id s) store = []).
  { destruct (filter (has_id s) store) as [|e es] eqn:F; [reflexivity|].
    exfalso.
    assert (Hin : In e (filter (has_id s) store)) by (rewrite F; now left).
    apply filter_In in Hin as [Hin He].
    assert (existsb (fun e => py_eq (cve_id e) (cve_id t)) store = true).
    { apply existsb_exists. exists e. split; [assumption|].
      now rewrite (same_id_as s t e Ht). }
    congruence. }
  rewrite Hnone. simpl. lia.
Qed.

Lemma add_threats_at_most_one (s : string) (appended : list OTThreat) :
  forall store,
  length (filter (has_id s) store) <= 1 ->
  length (filter (has_id s) (add_threats store appended)) <= 1.
Proof.
  unfold add_threats.
  induction appended as [|t ts IH]; intros store H; simpl; [assumption|].
  apply IH. now apply add_threat_at_most_one.
Qed.

(** A store only grows at its end: what is stored is never rewritten. *)
Lemma add_threats_extends (appended : list OTThreat) :
  forall store, exists added,
    add_threats store appended = (store ++ added)%list /\
    incl added appended.
Proof.
  unfold add_threats.
  induction appended as [|t ts IH]; intros store; simpl.
  - exists []. split; [now rewrite app_nil_r | apply incl_refl].
  - destruct (IH (add_threat store t)) as [added [Heq Hincl]].
    unfold add_threat in *.
    destruct (existsb _ store).
    + exists added. split; [assumption | now apply incl_tl].
    + exists (t :: added). rewrite Heq, <- app_assoc. split; [reflexivity|].
      intros x [<-|Hx]; [now left | right; now apply Hincl].
Qed.

(** C3.  Take any batches of threats appended, cycle after cycle, to an
    empty store, and any identifier [s].  The store then holds at most one
    entry carrying [s]; that entry is the first threat carrying [s] in the
    whole appended sequence; and appending a threat that carries [s] when
    the store already has an entry for [s] leaves the store as it is. *)
Theorem store_first_write_wins (batches : list (list OTThreat)) (s : string) :
  let final := add_batches [] batches in
  length (filter (has_id s) final) <= 1 /\
  find (has_id s) final = find (has_id s) (concat batches) /\
  (forall t, has_id s t = true -> find (has_id s) final <> None ->
             add_threat final t = final /\
             add_batches [] (batches ++ [[t]]) = final).
Proof.
  cbv zeta. rewrite add_batches_concat. split; [|split].
  - apply add_threats_at_most_one. simpl. lia.
  - now rewrite add_threats_find.
  - intros t Ht Hfound.
    assert (Hsame : add_threat (add_threats [] (concat batches)) t
                    = add_threats [] (concat batches)).
    { apply add_threat_present. apply find_some_existsb in Hfound.
      rewrite <- Hfound. apply existsb_pointwise.
      intros e. now apply same_id_as. }
    split; [exact Hsame|].
    rewrite add_batches_concat, concat_app. simpl.
    unfold add_threats in *. now rewrite fold_left_app.
Qed.

Lemma store_first_write_wins_witness :
  let batches := [ [Demo.plc_threat "CVE-2024-0001" "first";
                    Demo.plc_threat "CVE-2024-0001" "second"];
                   [Demo.plc_threat "CVE-2024-0002" "other";
                    Demo.plc_threat "CVE-2024-0001" "third"] ] in
  add_batches [] batches
    = [Demo.plc_threat "CVE-2024-0001" "first";
       Demo.plc_threat "CVE-2024-0002" "other"] /\
  add_threat (add_batches [] batches) (Demo.plc_threat "CVE-2024-0001" "late")
    = add_batches [] batches /\
  add_batches [] (batches ++ [[Demo.plc_threat "CVE-2024-0001" "late"]])
    = add_batches [] batches.
Proof.
  cbv zeta. split; [reflexivity|].
  apply (store_first_write_wins
           [ [Demo.plc_threat "CVE-2024-0001" "first";
              Demo.plc_threat "CVE-2024-0001" "second"];
             [Demo.plc_threat "CVE-2024-0002" "other";
              Demo.plc_threat "CVE-2024-0001" "third"] ]
           "CVE-2024-0001").
  - reflexivity.
  - vm_compute. discriminate.
Defined.

(** ** Persistence *)

(** Rebuilding a threat from its own [asdict] gives the threat back. *)
Lemma from_item_asdict (t : OTThreat) : from_item (asdict t) = Ok t.
Proof. now destruct t. Qed.

Lemma from_items_asdict (store : list OTThreat) :
  from_items (map asdict store) = Ok store.
Proof.
  induction store as [|t ts IH]; [reflexivity|].
  cbn [map from_items]. rewrite from_item_asdict. cbn [bind].
  now rewrite IH.
Qed.

Lemma read_after_write {file_text : Type} (name : string) (text : file_text)
    (fs : filesystem file_text) :
  write_file file_text name text fs name = Some text.
Proof. unfold write_file. now rewrite String.eqb_refl. Qed.

(** C7.  For every agent, whatever its list of threats (empty or not) and
    whatever the files held before: after [save_threats], constructing a
    new agent over the resulting files succeeds and its list of threats is
    the saved list, field for field.  The hypothesis is the contract of the
    JSON library on the document written: [json.load] reads back what
    [json.dump] wrote. *)
Theorem save_then_load_round_trip {file_text : Type}
    (json_dump : pyval -> file_text) (json_load : file_text -> option pyval)
    (self : AutonomousOTAgent) (fs : filesystem file_text) :
  json_load (json_dump (PyList (map asdict (ot_threats self))))
    = Some (PyList (map asdict (ot_threats self))) ->
  new_agent file_text json_load (save_threats file_text json_dump self fs)
    = Ok (mkAgent new_fetcher (ot_threats self)).
Proof.
  intros Hcodec. unfold new_agent, load_existing_threats, save_threats.
  rewrite read_after_write, Hcodec. cbn [py_iter bind].
  now rewrite from_items_asdict.
Qed.

Lemma save_then_load_round_trip_witness :
  let self := mkAgent (mkFetcher [PyStr "CVE-2024-0001"])
                [Demo.plc_threat "CVE-2024-0001" "first";
                 mkOTThreat (PyStr "CVE-2024-0002") PyNone
                   (PyStr "Default password on an HMI")
                   (PyStr fallback_insight) (PyList [PyStr "HMI"])
                   (PyStr (Demo.clock 1))] in
  new_agent pyval (fun v => Some v)
    (save_threats pyval (fun v => v) self (fun _ => None))
  = Ok (mkAgent new_fetcher (ot_threats self)).
Proof.
  cbv zeta.
  apply (save_then_load_round_trip (fun v : pyval => v) (fun v => Some v)
           (mkAgent (mkFetcher [PyStr "CVE-2024-0001"])
              [Demo.plc_threat "CVE-2024-0001" "first";
               mkOTThreat (PyStr "CVE-2024-0002") PyNone
                 (PyStr "Default password on an HMI")
                 (PyStr fallback_insight) (PyList [PyStr "HMI"])
                 (PyStr (Demo.clock 1))])
           (fun _ => None)).
  reflexivity.
Defined.

(** The empty store round-trips as well: the file holds an empty array. *)
Lemma empty_store_round_trip {file_text : Type}
    (json_dump : pyval -> file_text) (json_load : file_text -> option pyval)
    (fs : filesystem file_text) :
  json_load (json_dump (PyList [])) = Some (PyList []) ->
  new_agent file_text json_load
    (save_threats file_text json_dump (mkAgent new_fetcher []) fs)
  = Ok (mkAgent new_fetcher []).
Proof.
  intros H. unfold new_agent, load_existing_threats, save_threats.
  rewrite read_after_write. cbn [ot_threats map]. now rewrite H.
Qed.

(** Without a file the new agent starts empty. *)
Lemma new_agent_without_file {file_text : Type}
    (json_load : file_text -> option pyval) (fs : filesystem file_text) :
  fs output_file = None ->
  new_agent file_text json_load fs = Ok (mkAgent new_fetcher []).
Proof.
  intros H. unfold new_agent, load_existing_threats. now rewrite H.
Qed.

(** ** What a successful call returns *)

Lemma py_eq_refl_hashable (v : pyval) : py_hashable v = true -> py_eq v v = true.
Proof.
  destruct v as [|b|q|s|l|d]; simpl; try discriminate; intros _.
  - reflexivity.
  - now destruct b.
  - apply Qeq_bool_iff. reflexivity.
  - apply String.eqb_refl.
Qed.

Lemma visit_skip_shape (vulnerability : pyval) (processed : list pyval) :
  visit vulnerability processed = Ok Skip ->
  exists id, entry_id vulnerability = Ok id /\
             existsb (fun y => py_eq y id) processed = true.
Proof.
  unfold visit, entry_id.
  destruct vulnerability as [| | | | |d]; try discriminate. cbn [py_get bind].
  destruct (dict_get d "cve" (PyDict [])) as [| | | | |cd]; try discriminate.
  cbn [py_get bind]. unfold set_contains.
  destruct (py_hashable (dict_get cd "id" (PyStr ""))); [|discriminate].
  cbn [bind].
  destruct (existsb _ processed) eqn:Hseen.
  - intros _. now exists (dict_get cd "id" (PyStr "")).
  - destruct (py_index0 _) as [fd|]; [|discriminate]. cbn [bind].
    destruct fd as [| | | | |fdd]; try discriminate. cbn [py_get bind].
    destruct (extract_score _) as [score|]; discriminate.
Qed.

Lemma visit_fresh_entry (vulnerability : pyval) (processed : list pyval)
    (id : pyval) (info : dict) :
  visit vulnerability processed = Ok (Fresh id info) ->
  entry_id vulnerability = Ok id.
Proof.
  unfold visit, entry_id.
  destruct vulnerability as [| | | | |d]; try discriminate. cbn [py_get bind].
  destruct (dict_get d "cve" (PyDict [])) as [| | | | |cd]; try discriminate.
  cbn [py_get bind]. unfold set_contains.
  destruct (py_hashable (dict_get cd "id" (PyStr ""))); [|discriminate].
  cbn [bind].
  destruct (existsb _ processed); [discriminate|].
  destruct (py_index0 _) as [fd|]; [|discriminate]. cbn [bind].
  destruct fd as [| | | | |fdd]; try discriminate. cbn [py_get bind].
  destruct (extract_score _) as [score|]; [|discriminate]. cbn [bind].
  now intros [= <- _].
Qed.

(** As long as the seen-set holds only identifiers of records already
    returned ([returned], then [cves]), a loop that ends without an
    exception keeps it so, and every entry it went through has its
    identifier on a returned record. *)
Lemma fetch_loop_complete (returned : list dict) (vulnerabilities : list pyval) :
  forall (cves : list dict) (processed : list pyval)
         (cves' : list dict) (processed' : list pyval),
  (forall y, In y processed ->
             exists r, In r (returned ++ cves)%list /\ record_id r = y) ->
  fetch_loop vulnerabilities cves processed = (Ok cves', processed') ->
  (forall y, In y processed' ->
             exists r, In r (returned ++ cves')%list /\ record_id r = y) /\
  incl cves cves' /\
  forall v, In v vulnerabilities ->
    exists id r, entry_id v = Ok id /\ In r (returned ++ cves')%list /\
                 py_eq (record_id r) id = true.
Proof.
  induction vulnerabilities as [|v vs IH]; intros cves p cves' p' Hexact; simpl.
  - intros [= <- <-]. split; [assumption|]. split; [apply incl_refl|].
    contradiction.
  - destruct (visit v p) as [[|id info]|e] eqn:Hv; [| |discriminate].
    + intros Hloop.
      destruct (IH cves p cves' p' Hexact Hloop) as [Hexact' [Hincl Hall]].
      split; [assumption|]. split; [assumption|].
      intros v' [<-|Hin]; [|now apply Hall].
      destruct (visit_skip_shape v p Hv) as [id [Hid Hseen]].
      apply existsb_exists in Hseen as [y [Hy Heq]].
      destruct (Hexact y Hy) as [r [Hr Hrid]].
      exists id, r. repeat split; [assumption | | now rewrite Hrid].
      apply in_app_or in Hr as [Hr|Hr]; apply in_or_app;
        [now left | right; now apply Hincl].
    + intros Hloop.
      destruct (visit_fresh_shape v p id info Hv) as [Hid [_ [Hhash _]]].
      assert (Hrid : record_id info = id)
        by (unfold record_id, dict_get; now rewrite Hid).
      destruct (IH (cves ++ [info])%list (id :: p) cves' p') as [Hexact' [Hincl Hall]].
      * intros y [<-|Hy].
        -- exists info. split; [|assumption].
           apply in_or_app. right. apply in_or_app. right. now left.
        -- destruct (Hexact y Hy) as [r [Hr Hrid']]. exists r.
           split; [|assumption].
           apply in_app_or in Hr as [Hr|Hr]; apply in_or_app;
             [now left | right; apply in_or_app; now left].
      * exact Hloop.
      * split; [assumption|]. split.
        -- intros r Hr. apply Hincl. apply in_or_app. now left.
        -- intros v' [<-|Hin]; [|now apply Hall].
           exists id, info. split; [now apply (visit_fresh_entry v p id info)|].
           split.
           ++ apply in_or_app. right. apply Hincl. apply in_or_app. right.
              now left.
           ++ rewrite Hrid. now apply py_eq_refl_hashable.
Qed.

(** Hence, while the seen-set of the instance holds only identifiers of
    records it has returned (as in a new instance), a call that succeeds
    returns records such that every entry of its window has its identifier
    on a record returned now or before; and the seen-set stays so. *)
Lemma successful_call_returns_window (returned : list dict)
    (reply : feed_reply) (self self1 : CVEFetcher) (cves : list dict) :
  (forall y, In y (processed_cves self) ->
             exists r, In r returned /\ record_id r = y) ->
  try_fetch reply self = (Ok cves, self1) ->
  fetch_latest_cves reply self = (cves, self1) /\
  (forall y, In y (processed_cves self1) ->
             exists r, In r (returned ++ cves)%list /\ record_id r = y) /\
  forall v, In v (window_of reply) ->
    exists id r, entry_id v = Ok id /\ In r (returned ++ cves)%list /\
                 py_eq (record_id r) id = true.
Proof.
  intros Hexact Htry. split.
  - unfold fetch_latest_cves. now rewrite Htry.
  - revert Htry. unfold try_fetch, window_of.
    destruct reply as [| |data]; try discriminate.
    destruct (bind _ _) as [vs|e]; [|discriminate].
    destruct (fetch_loop vs [] (processed_cves self)) as [out p'] eqn:Hl.
    intros [= -> <-]. cbn [processed_cves].
    destruct (fetch_loop_complete returned vs [] (processed_cves self) cves p')
      as [Hexact' [_ Hall]]; [|exact Hl|now split].
    intros y Hy. rewrite app_nil_r. now apply Hexact.
Qed.

(** ** The cycle *)

Section CycleFacts.

Variable file_text : Type.
Variable json_dump : pyval -> file_text.
Variable oracle : list string -> string -> oracle_reply.
Variable now_isoformat : nat -> string.
Variable json_loads : string -> option pyval.
Variable str_strip : string -> string.
Variable py_format : pyval -> string.

Local Abbreviation cycle :=
  (run_cycle file_text json_dump oracle now_isoformat json_loads str_strip
     py_format).

(** A cycle whose fetch returns nothing (no new record, or a failed
    fetch) touches neither the store nor the files. *)
Lemma run_cycle_nothing_fetched (reply : feed_reply) (st : state file_text) :
  fst (fetch_latest_cves reply (fetcher (agent file_text st))) = [] ->
  fst (cycle reply st) = Ok tt /\
  ot_threats (agent file_text (snd (cycle reply st)))
    = ot_threats (agent file_text st) /\
  files file_text (snd (cycle reply st)) = files file_text st /\
  outside file_text (snd (cycle reply st)) = outside file_text st.
Proof.
  unfold run_cycle.
  destruct (fetch_latest_cves reply _) as [new_cves fetcher1]. simpl.
  intros ->. repeat split.
Qed.

(** A cycle that analyzes its records without an exception appends the
    resulting threats through [add_threats] and writes that store. *)
Lemma run_cycle_appends_and_saves (reply : feed_reply) (st : state file_text)
    (new_cves : list dict) (fetcher1 : CVEFetcher) (threats : list OTThreat)
    (w : world) :
  fetch_latest_cves reply (fetcher (agent file_text st)) = (new_cves, fetcher1) ->
  new_cves <> [] ->
  batch_analyze oracle now_isoformat json_loads str_strip py_format
    new_cves (outside file_text st) = (Ok threats, w) ->
  let store := add_threats (ot_threats (agent file_text st)) threats in
  cycle reply st
  = (Ok tt,
     mkState file_text (mkAgent fetcher1 store) w
       (write_file file_text output_file
          (json_dump (PyList (map asdict store))) (files file_text st))).
Proof.
  intros Hfetch Hne Hbatch. unfold run_cycle. rewrite Hfetch.
  destruct new_cves as [|c cs]; [congruence|].
  now rewrite Hbatch.
Qed.

End CycleFacts.

(* ===================================================================== *)
(** * Further facts *)
(* ===================================================================== *)

(** ** The relevance filter, continued *)

Lemma lower_char_idempotent (c : ascii) : lower_char (lower_char c) = lower_char c.
Proof. destruct c as [[] [] [] [] [] [] [] []]; reflexivity. Qed.

Lemma lower_idempotent (s : string) : lower (lower s) = lower s.
Proof.
  induction s as [|c s IH]; simpl; [reflexivity|].
  now rewrite lower_char_idempotent, IH.
Qed.

Lemma occurs_ci_in_context (k pre text post : string) :
  occurs_ci k text -> occurs_ci k (pre ++ text ++ post).
Proof.
  intros [a [m [b [-> Hm]]]].
  exists (pre ++ a), m, (b ++ post). split; [|assumption].
  now rewrite !append_assoc.
Qed.

Lemma occurs_ci_lower (k text : string) :
  occurs_ci k text -> occurs_ci k (lower text).
Proof.
  intros [a [m [b [-> Hm]]]].
  exists (lower a), (lower m), (lower b). split.
  - now rewrite !lower_append.
  - now rewrite lower_idempotent.
Qed.

(** ** The classifier, continued *)

Lemma startswith_str_take (n : nat) (s : string) :
  startswith (str_take n s) s = true.
Proof.
  revert s; induction n as [|n IH]; intros [|c s]; simpl; try reflexivity.
  now rewrite Ascii.eqb_refl, IH.
Qed.

Section MoreAnalyzerFacts.

Variable oracle : list string -> string -> oracle_reply.
Variable now_isoformat : nat -> string.
Variable json_loads : string -> option pyval.
Variable str_strip : string -> string.
Variable py_format : pyval -> string.

Local Abbreviation analyze :=
  (analyze_with_llm oracle now_isoformat json_loads str_strip py_format).
Local Abbreviation batch :=
  (batch_analyze oracle now_isoformat json_loads str_strip py_format).
Local Abbreviation batch_from :=
  (batch_analyze_from oracle now_isoformat json_loads str_strip py_format).
Local Abbreviation threat_of := (threat_of now_isoformat).
Local Abbreviation called := (called py_format).
Local Abbreviation called_and_stamped := (called_and_stamped py_format).

(** The outcomes of [analyze_with_llm] on a record that has its keys. *)
Lemma analyze_cases (cve : dict) (id : pyval) (text : string) (w : world) :
  dict_lookup "description" cve = Some (PyStr text) ->
  dict_lookup "cve_id" cve = Some id ->
  (found_keywords text = [] /\ analyze cve w = (Ok None, w)) \/
  (found_keywords text <> [] /\
   (analyze cve w = (Ok None, called cve id text w) \/
    exists insight,
      analyze cve w = (Ok (Some (threat_of cve id text insight w)),
                       called_and_stamped cve id text w))).
Proof.
  intros Hd Hi.
  destruct (found_keywords text) as [|k ks] eqn:E.
  - left. split; [reflexivity|].
    now apply (analyze_unmatched oracle now_isoformat json_loads str_strip
                 py_format cve id text w).
  - right. split; [discriminate|].
    assert (Hne : found_keywords text <> []) by (rewrite E; discriminate).
    rewrite (analyze_matched oracle now_isoformat json_loads str_strip
               py_format cve id text w Hd Hi Hne).
    destruct (oracle_verdict json_loads str_strip _) as [[insight|]|e].
    + right. now exists insight.
    + now left.
    + right. now exists (PyStr fallback_insight).
Qed.

(** A returned threat carries the identifier stored in the record. *)
Lemma analyze_identifier (cve : dict) (w w' : world) (t : OTThreat) (id : pyval) :
  dict_lookup "cve_id" cve = Some id ->
  analyze cve w = (Ok (Some t), w') ->
  cve_id t = id.
Proof.
  intros Hi. unfold analyze_with_llm. rewrite Hi.
  destruct (dict_lookup "description" cve) as [dv|]; [|discriminate].
  destruct dv as [| | |text| |]; try discriminate.
  destruct (found_keywords text); [discriminate|].
  unfold call_oracle, read_clock.
  destruct (oracle_verdict _ _ _) as [[insight|]|e]; intros [= <- _];
    reflexivity.
Qed.

(** X3.  Every threat [analyze_with_llm] returns comes from a record
    whose description matched a keyword: it carries the record's
    identifier and stored score unchanged, the filter's keywords (never an
    empty list) and the clock reading, and exactly one prompt was sent to
    the oracle and the clock was read once for it. *)
Theorem returned_threat_shape (cve : dict) (w w' : world) (t : OTThreat) :
  analyze cve w = (Ok (Some t), w') ->
  exists id text,
    dict_lookup "description" cve = Some (PyStr text) /\
    dict_lookup "cve_id" cve = Some id /\
    found_keywords text <> [] /\
    cve_id t = id /\
    cvss_score t = dict_get cve "cvss_score" (PyNum 0) /\
    ot_keywords_found t = PyList (map PyStr (found_keywords text)) /\
    timestamp t = PyStr (now_isoformat (clock_reads w)) /\
    oracle_calls w' = prompt_for py_format cve id text :: oracle_calls w /\
    clock_reads w' = S (clock_reads w).
Proof.
  intros Ha.
  destruct (dict_lookup "description" cve) as [dv|] eqn:Hd;
    [|unfold analyze_with_llm in Ha; rewrite Hd in Ha; discriminate].
  destruct (dict_lookup "cve_id" cve) as [id|] eqn:Hi;
    [|unfold analyze_with_llm in Ha; rewrite Hd, Hi in Ha; discriminate].
  destruct dv as [| | |text| |];
    try (unfold analyze_with_llm in Ha; rewrite Hd, Hi in Ha; discriminate).
  exists id, text.
  destruct (analyze_cases cve id text w Hd Hi)
    as [[_ Hn] | [Hne [Hn | [insight Hs]]]];
    try (rewrite Hn in Ha; discriminate).
  rewrite Hs in Ha. injection Ha as <- <-.
  repeat split; assumption.
Qed.

(** X4.  The description a returned threat carries is a prefix of the
    record's description, at most 500 characters long, and the whole
    description when that has at most 500 characters. *)
Theorem excerpt_is_bounded_prefix (cve : dict) (w w' : world) (t : OTThreat)
    (text : string) :
  dict_lookup "description" cve = Some (PyStr text) ->
  analyze cve w = (Ok (Some t), w') ->
  exists excerpt,
    description t = PyStr excerpt /\
    String.length excerpt <= 500 /\
    startswith excerpt text = true /\
    (String.length text <= 500 -> excerpt = text).
Proof.
  intros Hd Ha.
  destruct (dict_lookup "cve_id" cve) as [id|] eqn:Hi;
    [|unfold analyze_with_llm in Ha; rewrite Hd, Hi in Ha; discriminate].
  destruct (analyze_cases cve id text w Hd Hi)
    as [[_ Hn] | [Hne [Hn | [insight Hs]]]];
    try (rewrite Hn in Ha; discriminate).
  rewrite Hs in Ha. injection Ha as <- <-.
  exists (str_take 500 text). split; [reflexivity|]. split; [|split].
  - rewrite str_take_length. apply Nat.le_min_l.
  - apply startswith_str_take.
  - apply str_take_short.
Qed.

(** A record without its keys makes [analyze_with_llm] raise at once. *)
Lemma analyze_malformed_raises (cve : dict) (w : world) :
  record_ok cve = false ->
  exists e, analyze cve w = (Raise e, w) /\ (e = KeyError \/ e = AttributeError).
Proof.
  unfold record_ok, analyze_with_llm.
  destruct (dict_lookup "description" cve) as [dv|];
    [|intros _; exists KeyError; auto].
  destruct (dict_lookup "cve_id" cve) as [id|].
  - destruct dv; try discriminate; intros _; exists AttributeError; auto.
  - intros _. exists KeyError. destruct dv; auto.
Qed.

(** X5.  [analyze_with_llm] raises only for a record that lacks
    ["description"] or ["cve_id"] ([KeyError]) or whose description is not
    a string ([AttributeError]), and then before anything was sent to the
    oracle; on every other record it returns, whatever the oracle does. *)
Theorem analyze_raises_only_on_malformed (cve : dict) (w : world) :
  match analyze cve w with
  | (Raise e, w') =>
      record_ok cve = false /\ w' = w /\ (e = KeyError \/ e = AttributeError)
  | (Ok _, _) => record_ok cve = true
  end.
Proof.
  unfold record_ok.
  destruct (dict_lookup "description" cve) as [dv|] eqn:Hd.
  - destruct (dict_lookup "cve_id" cve) as [id|] eqn:Hi.
    + destruct dv as [| | |text| |];
        try (unfold analyze_with_llm; rewrite Hd, Hi; now auto).
      destruct (analyze_cases cve id text w Hd Hi)
        as [[_ Hn] | [Hne [Hn | [insight Hs]]]];
        [rewrite Hn | rewrite Hn | rewrite Hs]; reflexivity.
    + unfold analyze_with_llm. rewrite Hd, Hi. destruct dv; auto.
  - unfold analyze_with_llm. rewrite Hd. auto.
Qed.

End MoreAnalyzerFacts.

Lemma returned_threat_shape_witness :
  exists id text,
    dict_lookup "description"
      (Demo.candidate "CVE-2024-0001" "Overflow in a PLC" (PyNum (75 # 10)))
      = Some (PyStr text) /\
    dict_lookup "cve_id"
      (Demo.candidate "CVE-2024-0001" "Overflow in a PLC" (PyNum (75 # 10)))
      = Some id /\
    found_keywords text <> [] /\
    cve_id (Demo.plc_threat "CVE-2024-0001" fallback_insight) = id /\
    cvss_score (Demo.plc_threat "CVE-2024-0001" fallback_insight)
      = dict_get
          (Demo.candidate "CVE-2024-0001" "Overflow in a PLC" (PyNum (75 # 10)))
          "cvss_score" (PyNum 0) /\
    ot_keywords_found (Demo.plc_threat "CVE-2024-0001" fallback_insight)
      = PyList (map PyStr (found_keywords text)) /\
    timestamp (Demo.plc_threat "CVE-2024-0001" fallback_insight)
      = PyStr (Demo.clock (clock_reads Demo.fresh_world)) /\
    oracle_calls
      (called_and_stamped Demo.format
         (Demo.candidate "CVE-2024-0001" "Overflow in a PLC" (PyNum (75 # 10)))
         (PyStr "CVE-2024-0001") "Overflow in a PLC" Demo.fresh_world)
      = prompt_for Demo.format
          (Demo.candidate "CVE-2024-0001" "Overflow in a PLC" (PyNum (75 # 10)))
          id text :: oracle_calls Demo.fresh_world /\
    clock_reads
      (called_and_stamped Demo.format
         (Demo.candidate "CVE-2024-0001" "Overflow in a PLC" (PyNum (75 # 10)))
         (PyStr "CVE-2024-0001") "Overflow in a PLC" Demo.fresh_world)
      = S (clock_reads Demo.fresh_world).
Proof.
  apply (returned_threat_shape Demo.oracle_down Demo.clock Demo.loads
           Demo.strip Demo.format
           (Demo.candidate "CVE-2024-0001" "Overflow in a PLC" (PyNum (75 # 10)))
           Demo.fresh_world
           (called_and_stamped Demo.format
              (Demo.candidate "CVE-2024-0001" "Overflow in a PLC" (PyNum (75 # 10)))
              (PyStr "CVE-2024-0001") "Overflow in a PLC" Demo.fresh_world)
           (Demo.plc_threat "CVE-2024-0001" fallback_insight)).
  vm_compute. reflexivity.
Defined.

Lemma excerpt_is_bounded_prefix_witness :
  exists excerpt,
    description (Demo.plc_threat "CVE-2024-0001" fallback_insight)
      = PyStr excerpt /\
    String.length excerpt <= 500 /\
    startswith excerpt "Overflow in a PLC" = true /\
    (String.length "Overflow in a PLC" <= 500 -> excerpt = "Overflow in a PLC").
Proof.
  apply (excerpt_is_bounded_prefix Demo.oracle_down Demo.clock Demo.loads
           Demo.strip Demo.format
           (Demo.candidate "CVE-2024-0001" "Overflow in a PLC" (PyNum (75 # 10)))
           Demo.fresh_world
           (called_and_stamped Demo.format
              (Demo.candidate "CVE-2024-0001" "Overflow in a PLC" (PyNum (75 # 10)))
              (PyStr "CVE-2024-0001") "Overflow in a PLC" Demo.fresh_world)
           (Demo.plc_threat "CVE-2024-0001" fallback_insight)
           "Overflow in a PLC").
  - reflexivity.
  - vm_compute. reflexivity.
Defined.

Section BatchFacts.

Variable oracle : list string -> string -> oracle_reply.
Variable now_isoformat : nat -> string.
Variable json_loads : string -> option pyval.
Variable str_strip : string -> string.
Variable py_format : pyval -> string.

Local Abbreviation analyze :=
  (analyze_with_llm oracle now_isoformat json_loads str_strip py_format).
Local Abbreviation batch :=
  (batch_analyze oracle now_isoformat json_loads str_strip py_format).
Local Abbreviation batch_from :=
  (batch_analyze_from oracle now_isoformat json_loads str_strip py_format).

(** The threats found so far only sit in front of what the rest of the
    loop finds. *)
Lemma batch_from_accumulates (cves : list dict) :
  forall (found : list OTThreat) (w : world),
  batch_from found cves w =
    match batch cves w with
    | (Ok threats, w') => (Ok (found ++ threats)%list, w')
    | (Raise e, w') => (Raise e, w')
    end.
Proof.
  unfold batch_analyze.
  induction cves as [|cve rest IH]; intros found w; simpl.
  - now rewrite app_nil_r.
  - destruct (analyze cve w) as [[[t|]|e] w1]; [| |reflexivity].
    + rewrite (IH (found ++ [t])%list w1), (IH [t] w1).
      destruct (batch_from [] rest w1) as [[ts|e] w2]; [|reflexivity].
      simpl. now rewrite <- app_assoc.
    + rewrite (IH found w1). reflexivity.
Qed.

Lemma batch_cons (cve : dict) (rest : list dict) (w : world) :
  batch (cve :: rest) w =
    match analyze cve w with
    | (Raise e, w1) => (Raise e, w1)
    | (Ok verdict, w1) =>
        match batch rest w1 with
        | (Ok threats, w2) =>
            (Ok (match verdict with Some t => t :: threats | None => threats end),
             w2)
        | (Raise e, w2) => (Raise e, w2)
        end
    end.
Proof.
  unfold batch_analyze at 1. simpl.
  destruct (analyze cve w) as [[[t|]|e] w1]; [| |reflexivity].
  - now rewrite batch_from_accumulates.
  - rewrite batch_from_accumulates.
    now destruct (batch rest w1) as [[ts|e] w2].
Qed.

(** X6.  [batch_analyze] on two lists put end to end is [batch_analyze]
    on the first, then on the second from the world the first left, with
    the threats of the first in front; an exception in either is the
    result. *)
Theorem batch_analyze_app (first second : list dict) (w : world) :
  batch (first ++ second)%list w =
    match batch first w with
    | (Raise e, w1) => (Raise e, w1)
    | (Ok found1, w1) =>
        match batch second w1 with
        | (Ok found2, w2) => (Ok (found1 ++ found2)%list, w2)
        | (Raise e, w2) => (Raise e, w2)
        end
    end.
Proof.
  revert w. induction first as [|cve rest IH]; intros w.
  - cbn [app].
    replace (batch [] w) with (@Ok (list OTThreat) [], w) by reflexivity.
    now destruct (batch second w) as [[ts|e] w2].
  - rewrite <- app_comm_cons, !batch_cons.
    destruct (analyze cve w) as [[verdict|e] w1]; [|reflexivity].
    rewrite IH.
    destruct (batch rest w1) as [[ts1|e] w2]; [|reflexivity].
    destruct (batch second w2) as [[ts2|e] w3]; [|reflexivity].
    now destruct verdict.
Qed.

(** What one analysis of a well-formed record does to the world. *)
Lemma analyze_cost (cve : dict) (w : world) :
  record_ok cve = true ->
  exists verdict w1,
    analyze cve w = (Ok verdict, w1) /\
    length (oracle_calls w1)
      = length (oracle_calls w) + (if needs_oracle cve then 1 else 0) /\
    clock_reads w1
      = clock_reads w + (match verdict with Some _ => 1 | None => 0 end) /\
    (needs_oracle cve = false -> verdict = None).
Proof.
  unfold record_ok, needs_oracle.
  destruct (dict_lookup "description" cve) as [dv|] eqn:Hd; [|discriminate].
  destruct dv as [| | |text| |]; try discriminate.
  destruct (dict_lookup "cve_id" cve) as [id|] eqn:Hi; [|discriminate].
  intros _.
  destruct (analyze_cases oracle now_isoformat json_loads str_strip py_format
              cve id text w Hd Hi)
    as [[Hnil Hn] | [Hne [Hn | [insight Hs]]]].
  - exists None, w. rewrite Hnil. repeat split; auto; lia.
  - exists None, (called py_format cve id text w).
    destruct (found_keywords text); [congruence|].
    split; [assumption|]. split; [simpl; lia|]. split; [simpl; lia|].
    reflexivity.
  - exists (Some (threat_of now_isoformat cve id text insight w)),
           (called_and_stamped py_format cve id text w).
    destruct (found_keywords text); [congruence|].
    split; [assumption|]. split; [simpl; lia|]. split; [simpl; lia|].
    discriminate.
Qed.

(** X7.  On records that all have their keys, [batch_analyze] returns
    whatever the oracle does; it sends exactly one prompt per record whose
    description matches a keyword and none for the others, returns at most
    one threat per prompt, and reads the clock once per threat. *)
Theorem batch_oracle_cost (cves : list dict) (w : world) :
  forallb record_ok cves = true ->
  exists threats w',
    batch cves w = (Ok threats, w') /\
    length (oracle_calls w')
      = length (oracle_calls w) + length (filter needs_oracle cves) /\
    length threats <= length (filter needs_oracle cves) /\
    clock_reads w' = clock_reads w + length threats.
Proof.
  revert w. induction cves as [|cve rest IH]; intros w Hok.
  - exists [], w. unfold batch_analyze. simpl. repeat split; lia.
  - simpl in Hok. apply andb_true_iff in Hok as [Hc Hrest].
    destruct (analyze_cost cve w Hc) as [verdict [w1 [Ha [Hcalls [Hclock Hnone]]]]].
    destruct (IH w1 Hrest) as [ts [w2 [Hb [Hcalls2 [Hlen Hclock2]]]]].
    rewrite batch_cons, Ha, Hb. simpl.
    destruct (needs_oracle cve) eqn:Hneed.
    + destruct verdict as [t|]; eexists; eexists; (split; [reflexivity|]);
        simpl; repeat split; lia.
    + rewrite (Hnone eq_refl) in *. eexists; eexists; (split; [reflexivity|]).
      simpl in *. repeat split; lia.
Qed.

(** X8.  One record without its keys makes [batch_analyze] raise: the
    threats found in the records before it are not returned and the
    records after it are not looked at, though the prompts already sent
    stay sent. *)
Theorem batch_aborts_on_malformed (good : list dict) (bad : dict)
    (rest : list dict) (found : list OTThreat) (w w1 : world) :
  batch good w = (Ok found, w1) ->
  record_ok bad = false ->
  exists e, batch (good ++ bad :: rest)%list w = (Raise e, w1) /\
            (e = KeyError \/ e = AttributeError).
Proof.
  intros Hgood Hbad. revert found w Hgood.
  induction good as [|cve good IH]; intros found w Hgood.
  - injection Hgood as _ <-.
    destruct (analyze_malformed_raises oracle now_isoformat json_loads
                str_strip py_format bad w Hbad) as [e [Ha He]].
    exists e. split; [|assumption].
    cbn [app]. now rewrite batch_cons, Ha.
  - rewrite batch_cons in Hgood.
    destruct (analyze cve w) as [[verdict|e0] w0] eqn:Ha; [|discriminate].
    destruct (batch good w0) as [[ts|e0] w2] eqn:Hb; [|discriminate].
    injection Hgood as _ <-.
    destruct (IH ts w0 Hb) as [e [Hraise He]].
    exists e. split; [|assumption].
    rewrite <- app_comm_cons, batch_cons, Ha. now rewrite Hraise.
Qed.

End BatchFacts.

Lemma batch_oracle_cost_witness :
  exists threats w',
    batch_analyze (Demo.oracle_says Demo.text_relevant) Demo.clock Demo.loads
      Demo.strip Demo.format
      [Demo.candidate "CVE-2024-0001" "Overflow in a PLC" (PyNum (75 # 10));
       Demo.candidate "CVE-2024-0002" "SQL injection in a web shop" PyNone]
      Demo.fresh_world = (Ok threats, w') /\
    length (oracle_calls w')
      = length (oracle_calls Demo.fresh_world)
        + length (filter needs_oracle
            [Demo.candidate "CVE-2024-0001" "Overflow in a PLC" (PyNum (75 # 10));
             Demo.candidate "CVE-2024-0002" "SQL injection in a web shop" PyNone]) /\
    length threats
      <= length (filter needs_oracle
            [Demo.candidate "CVE-2024-0001" "Overflow in a PLC" (PyNum (75 # 10));
             Demo.candidate "CVE-2024-0002" "SQL injection in a web shop" PyNone]) /\
    clock_reads w' = clock_reads Demo.fresh_world + length threats.
Proof.
  apply (batch_oracle_cost (Demo.oracle_says Demo.text_relevant) Demo.clock
           Demo.loads Demo.strip Demo.format
           [Demo.candidate "CVE-2024-0001" "Overflow in a PLC" (PyNum (75 # 10));
            Demo.candidate "CVE-2024-0002" "SQL injection in a web shop" PyNone]
           Demo.fresh_world).
  reflexivity.
Defined.

Lemma batch_aborts_on_malformed_witness :
  exists e,
    batch_analyze Demo.oracle_down Demo.clock Demo.loads Demo.strip Demo.format
      ([Demo.candidate "CVE-2024-0001" "Overflow in a PLC" (PyNum (75 # 10))]
       ++ [("cve_id", PyStr "CVE-2024-0002")]
       :: [Demo.candidate "CVE-2024-0003" "Default password on an HMI" PyNone])%list
      Demo.fresh_world
    = (Raise e,
       called_and_stamped Demo.format
         (Demo.candidate "CVE-2024-0001" "Overflow in a PLC" (PyNum (75 # 10)))
         (PyStr "CVE-2024-0001") "Overflow in a PLC" Demo.fresh_world) /\
    (e = KeyError \/ e = AttributeError).
Proof.
  apply (batch_aborts_on_malformed Demo.oracle_down Demo.clock Demo.loads
           Demo.strip Demo.format
           [Demo.candidate "CVE-2024-0001" "Overflow in a PLC" (PyNum (75 # 10))]
           [("cve_id", PyStr "CVE-2024-0002")]
           [Demo.candidate "CVE-2024-0003" "Default password on an HMI" PyNone]
           [Demo.plc_threat "CVE-2024-0001" fallback_insight]).
  - vm_compute. reflexivity.
  - reflexivity.
Defined.

(** ** The fetcher, continued *)

Lemma dict_has_lookup (k : string) (d : dict) :
  existsb (String.eqb k) (dict_keys d)
  = match dict_lookup k d with Some _ => true | None => false end.
Proof.
  induction d as [|[k' v] d IH]; simpl; [reflexivity|].
  destruct (String.eqb k k'); [reflexivity | exact IH].
Qed.

Lemma base_score_of_scheme (m : dict) (k : string) (s : pyval) :
  scheme_score m k s -> base_score (PyDict m) k = Ok s.
Proof.
  intros [entry [rest [data [Hk [Hd Hs]]]]].
  unfold base_score. simpl. rewrite Hk. simpl. rewrite Hd. simpl.
  now rewrite Hs.
Qed.

(** X9.  The score is taken from the newest scoring scheme present:
    CVSS 3.1 whatever else is there, CVSS 3.0 only without 3.1, CVSS 2 only
    without both, and [None] without any.  A scheme that is present but
    empty makes the extraction raise; the older schemes are not tried. *)
Theorem newest_scheme_wins (m : dict) (s : pyval) :
  (scheme_score m "cvssMetricV31" s -> extract_score (PyDict m) = Ok s) /\
  (dict_lookup "cvssMetricV31" m = None ->
   scheme_score m "cvssMetricV30" s -> extract_score (PyDict m) = Ok s) /\
  (dict_lookup "cvssMetricV31" m = None ->
   dict_lookup "cvssMetricV30" m = None ->
   scheme_score m "cvssMetricV2" s -> extract_score (PyDict m) = Ok s) /\
  (dict_lookup "cvssMetricV31" m = None ->
   dict_lookup "cvssMetricV30" m = None ->
   dict_lookup "cvssMetricV2" m = None ->
   extract_score (PyDict m) = Ok PyNone) /\
  (dict_lookup "cvssMetricV31" m = Some (PyList []) ->
   extract_score (PyDict m) = Raise IndexError).
Proof.
  unfold extract_score. cbn [py_contains bind]. rewrite !dict_has_lookup.
  repeat split.
  - intros H. pose proof H as [entry [rest [data [Hk _]]]]. rewrite Hk.
    now apply base_score_of_scheme.
  - intros H31 H. rewrite H31.
    pose proof H as [entry [rest [data [Hk _]]]]. rewrite Hk.
    now apply base_score_of_scheme.
  - intros H31 H30 H. rewrite H31, H30.
    pose proof H as [entry [rest [data [Hk _]]]]. rewrite Hk.
    now apply base_score_of_scheme.
  - intros H31 H30 H2. now rewrite H31, H30, H2.
  - intros H31. rewrite H31. unfold base_score. simpl. now rewrite H31.
Qed.

Lemma newest_scheme_wins_witness :
  extract_score
    (PyDict
       [ ("cvssMetricV2",
          PyList [PyDict [("cvssData", PyDict [("baseScore", PyNum (50 # 10))])]]);
         ("cvssMetricV31",
          PyList [PyDict [("cvssData", PyDict [("baseScore", PyNum (98 # 10))])]]) ])
  = Ok (PyNum (98 # 10)).
Proof.
  destruct (newest_scheme_wins
              [ ("cvssMetricV2",
                 PyList [PyDict [("cvssData", PyDict [("baseScore", PyNum (50 # 10))])]]);
                ("cvssMetricV31",
                 PyList [PyDict [("cvssData", PyDict [("baseScore", PyNum (98 # 10))])]]) ]
              (PyNum (98 # 10))) as [Hnewest _].
  apply Hnewest.
  exists [("cvssData", PyDict [("baseScore", PyNum (98 # 10))])], [],
         [("baseScore", PyNum (98 # 10))].
  repeat split.
Defined.

Lemma visit_fresh_keys (vulnerability : pyval) (processed : list pyval)
    (id : pyval) (info : dict) :
  visit vulnerability processed = Ok (Fresh id info) ->
  exists text score,
    dict_lookup "cve_id" info = Some id /\
    dict_lookup "description" info = Some text /\
    dict_lookup "cvss_score" info = Some score /\
    py_hashable id = true.
Proof.
  unfold visit.
  destruct vulnerability as [| | | | |d]; try discriminate. cbn [py_get bind].
  destruct (dict_get d "cve" (PyDict [])) as [| | | | |cd]; try discriminate.
  cbn [py_get bind]. unfold set_contains.
  destruct (py_hashable (dict_get cd "id" (PyStr ""))) eqn:Hh;
    [|discriminate]. cbn [bind].
  destruct (existsb _ processed); [discriminate|].
  destruct (py_index0 _) as [fd|]; [|discriminate]. cbn [bind].
  destruct fd as [| | | | |fdd]; try discriminate. cbn [py_get bind].
  destruct (extract_score _) as [score|]; [|discriminate]. cbn [bind].
  intros [= <- <-]. exists (dict_get fdd "value" (PyStr "")), score.
  cbn. repeat split. assumption.
Qed.

(** What holds of every fresh record holds of every record a loop that
    ends well has added. *)
Lemma fetch_loop_forall (P : dict -> Prop) :
  (forall v p id info, visit v p = Ok (Fresh id info) -> P info) ->
  forall (vulnerabilities : list pyval) (cves : list dict)
         (processed : list pyval) (cves' : list dict) (processed' : list pyval),
  Forall P cves ->
  fetch_loop vulnerabilities cves processed = (Ok cves', processed') ->
  Forall P cves'.
Proof.
  intros HP vs. induction vs as [|v vs IH]; intros cves p cves' p' Hall; simpl.
  - now intros [= <- _].
  - destruct (visit v p) as [[|id info]|e] eqn:Hv; [| |discriminate].
    + now apply IH.
    + apply IH. apply Forall_app. split; [assumption|].
      constructor; [|constructor]. now apply (HP v p id info).
Qed.

Lemma fetched_forall (P : dict -> Prop) :
  (forall v p id info, visit v p = Ok (Fresh id info) -> P info) ->
  forall (reply : feed_reply) (self : CVEFetcher) (r : dict),
  In r (fst (fetch_latest_cves reply self)) -> P r.
Proof.
  intros HP reply self r.
  unfold fetch_latest_cves, try_fetch.
  destruct reply as [| |data]; simpl; try contradiction.
  destruct (bind _ _) as [vs|e]; simpl; [|contradiction].
  destruct (fetch_loop vs [] (processed_cves self)) as [[cves|e] p] eqn:Hl;
    simpl; [|contradiction].
  intros Hin.
  pose proof (fetch_loop_forall P HP vs [] _ cves p (Forall_nil _) Hl) as Hall.
  rewrite Forall_forall in Hall. now apply Hall.
Qed.

(** X10.  Every record [fetch_latest_cves] returns has a hashable
    identifier, a description and a score under their keys.  So
    [analyze_with_llm] can raise on it only because its description is not
    a string, and a threat built from it carries the stored identifier and
    the stored score: the analyzer's default score never applies to a
    fetched record. *)
Theorem fetched_records_fit_analyzer (reply : feed_reply) (self : CVEFetcher)
    (r : dict) :
  In r (fst (fetch_latest_cves reply self)) ->
  exists id text score,
    dict_lookup "cve_id" r = Some id /\
    py_hashable id = true /\
    dict_lookup "description" r = Some text /\
    dict_lookup "cvss_score" r = Some score /\
    forall oracle now_isoformat json_loads str_strip py_format w w',
      (forall t,
         analyze_with_llm oracle now_isoformat json_loads str_strip py_format
           r w = (Ok (Some t), w') ->
         cve_id t = id /\ cvss_score t = score) /\
      (forall e,
         analyze_with_llm oracle now_isoformat json_loads str_strip py_format
           r w = (Raise e, w') ->
         e = AttributeError /\ forall s, text <> PyStr s).
Proof.
  intros Hin.
  destruct (fetched_forall
              (fun info => exists id text score,
                 dict_lookup "cve_id" info = Some id /\
                 dict_lookup "description" info = Some text /\
                 dict_lookup "cvss_score" info = Some score /\
                 py_hashable id = true)) with (reply := reply) (self := self) (r := r)
    as [id [text [score [Hi [Hd [Hs Hh]]]]]]; [|assumption|].
  { intros v p id info Hv.
    destruct (visit_fresh_keys v p id info Hv) as [text [score H]].
    now exists id, text, score. }
  exists id, text, score. repeat split; try assumption.
  - now apply (analyze_identifier oracle now_isoformat json_loads str_strip
                 py_format r w w' t id).
  - rewrite (analyze_score_present oracle now_isoformat json_loads str_strip
               py_format r w w' t score Hs H). reflexivity.
  - revert H. unfold analyze_with_llm. rewrite Hd, Hi.
    destruct text as [| | |s| |]; try (now intros [= <- _]).
    destruct (found_keywords s); [discriminate|].
    unfold call_oracle, read_clock.
    destruct (oracle_verdict _ _ _) as [[insight|]|e']; discriminate.
  - intros s ->. revert H. unfold analyze_with_llm. rewrite Hd, Hi.
    destruct (found_keywords s); [discriminate|].
    unfold call_oracle, read_clock.
    destruct (oracle_verdict _ _ _) as [[insight|]|e']; discriminate.
Qed.

Lemma fetched_records_fit_analyzer_witness :
  exists id text score,
    dict_lookup "cve_id" (Demo.unscored_record "CVE-2024-0001" "Overflow in a PLC")
      = Some id /\
    py_hashable id = true /\
    dict_lookup "description"
      (Demo.unscored_record "CVE-2024-0001" "Overflow in a PLC") = Some text /\
    dict_lookup "cvss_score"
      (Demo.unscored_record "CVE-2024-0001" "Overflow in a PLC") = Some score /\
    forall oracle now_isoformat json_loads str_strip py_format w w',
      (forall t,
         analyze_with_llm oracle now_isoformat json_loads str_strip py_format
           (Demo.unscored_record "CVE-2024-0001" "Overflow in a PLC") w
         = (Ok (Some t), w') ->
         cve_id t = id /\ cvss_score t = score) /\
      (forall e,
         analyze_with_llm oracle now_isoformat json_loads str_strip py_format
           (Demo.unscored_record "CVE-2024-0001" "Overflow in a PLC") w
         = (Raise e, w') ->
         e = AttributeError /\ forall s, text <> PyStr s).
Proof.
  apply (fetched_records_fit_analyzer
           (Demo.feed_page [Demo.feed_entry "CVE-2024-0001" "Overflow in a PLC" []])
           new_fetcher
           (Demo.unscored_record "CVE-2024-0001" "Overflow in a PLC")).
  vm_compute. left. reflexivity.
Defined.

(** Identifiers are only ever added to the set. *)
Lemma fetch_loop_incl (vulnerabilities : list pyval) :
  forall (cves : list dict) (processed : list pyval)
         (out : result (list dict)) (processed' : list pyval),
  fetch_loop vulnerabilities cves processed = (out, processed') ->
  incl processed processed'.
Proof.
  induction vulnerabilities as [|v vs IH]; intros cves p out p'; simpl.
  - intros [= _ <-]. apply incl_refl.
  - destruct (visit v p) as [[|id info]|e].
    + apply IH.
    + intros H. apply IH in H. intros y Hy. apply H. now right.
    + intros [= _ <-]. apply incl_refl.
Qed.

Lemma fetch_latest_cves_incl (reply : feed_reply) (self : CVEFetcher) :
  incl (processed_cves self)
       (processed_cves (snd (fetch_latest_cves reply self))).
Proof.
  unfold fetch_latest_cves, try_fetch.
  destruct reply as [| |data]; simpl; try apply incl_refl.
  destruct (bind _ _) as [vs|e]; simpl; [|apply incl_refl].
  destruct (fetch_loop vs [] (processed_cves self)) as [out p'] eqn:Hl.
  apply fetch_loop_incl in Hl. now destruct out.
Qed.

Lemma fetch_many_invariant (replies : list feed_reply) :
  forall (prev : list dict) (self : CVEFetcher),
  Forall (fun r => In (record_id r) (processed_cves self)) prev ->
  ForallOrdPairs distinct_ids prev ->
  ForallOrdPairs distinct_ids
    (prev ++ concat (fst (fetch_many replies self)))%list /\
  Forall (fun r => In (record_id r)
                      (processed_cves (snd (fetch_many replies self))))
         (prev ++ concat (fst (fetch_many replies self)))%list /\
  incl (processed_cves self) (processed_cves (snd (fetch_many replies self))).
Proof.
  induction replies as [|reply rest IH]; intros prev self Hin Hd; simpl.
  - rewrite app_nil_r. repeat split; try assumption. apply incl_refl.
  - destruct (fetch_latest_cves_distinct prev reply self Hin Hd) as [Hin1 Hd1].
    pose proof (fetch_latest_cves_incl reply self) as Hincl1.
    destruct (fetch_latest_cves reply self) as [cves self1]. simpl in *.
    destruct (IH (prev ++ cves)%list self1 Hin1 Hd1) as [Hd2 [Hin2 Hincl2]].
    destruct (fetch_many rest self1) as [later self2]. simpl in *.
    rewrite app_assoc. repeat split; try assumption.
    intros y Hy. now apply Hincl2, Hincl1.
Qed.

(** X11.  Over any run of calls on a new fetcher, failed calls included,
    no two returned records carry the same identifier, within a call or
    across calls, and the identifier of every returned record is in
    [processed_cves] at the end. *)
Theorem run_returns_each_identifier_once (replies : list feed_reply) :
  ForallOrdPairs distinct_ids (concat (fst (fetch_many replies new_fetcher))) /\
  Forall (fun r => In (record_id r)
                      (processed_cves (snd (fetch_many replies new_fetcher))))
         (concat (fst (fetch_many replies new_fetcher))).
Proof.
  destruct (fetch_many_invariant replies [] new_fetcher
              (Forall_nil _) (FOP_nil _)) as [Hd [Hin _]].
  now split.
Qed.

(** X12.  A call never takes an identifier out of [processed_cves], and
    a call whose request fails or whose body is not JSON leaves the fetcher
    as it was; so does a whole run, call after call. *)
Theorem seen_set_only_grows (replies : list feed_reply) (reply : feed_reply)
    (self : CVEFetcher) :
  incl (processed_cves self)
       (processed_cves (snd (fetch_latest_cves reply self))) /\
  incl (processed_cves self)
       (processed_cves (snd (fetch_many replies self))) /\
  fetch_latest_cves FeedRaises self = ([], self) /\
  fetch_latest_cves FeedNotJson self = ([], self).
Proof.
  split; [apply fetch_latest_cves_incl|]. split; [|now split].
  revert self. induction replies as [|r rest IH]; intros self; simpl.
  - apply incl_refl.
  - pose proof (fetch_latest_cves_incl r self) as H1.
    destruct (fetch_latest_cves r self) as [cves self1]. simpl in *.
    specialize (IH self1).
    destruct (fetch_many rest self1) as [later self2]. simpl in *.
    intros y Hy. now apply IH, H1.
Qed.

(** An entry whose identifier is in the set is skipped before anything
    else of it is read. *)
Lemma visit_seen (vulnerability : pyval) (processed : list pyval) (id : pyval) :
  entry_id vulnerability = Ok id ->
  py_hashable id = true ->
  existsb (fun y => py_eq y id) processed = true ->
  visit vulnerability processed = Ok Skip.
Proof.
  unfold visit, entry_id.
  destruct vulnerability as [| | | | |d]; try discriminate. cbn [py_get bind].
  destruct (dict_get d "cve" (PyDict [])) as [| | | | |cd]; try discriminate.
  cbn [py_get bind]. intros [= <-] Hh Hseen.
  unfold set_contains. now rewrite Hh, Hseen.
Qed.

Lemma visit_skip_hashable (vulnerability : pyval) (processed : list pyval) :
  visit vulnerability processed = Ok Skip ->
  exists id, entry_id vulnerability = Ok id /\ py_hashable id = true /\
             existsb (fun y => py_eq y id) processed = true.
Proof.
  unfold visit, entry_id.
  destruct vulnerability as [| | | | |d]; try discriminate. cbn [py_get bind].
  destruct (dict_get d "cve" (PyDict [])) as [| | | | |cd]; try discriminate.
  cbn [py_get bind]. unfold set_contains.
  destruct (py_hashable (dict_get cd "id" (PyStr ""))) eqn:Hh; [|discriminate].
  cbn [bind].
  destruct (existsb _ processed) eqn:Hseen.
  - intros _. now exists (dict_get cd "id" (PyStr "")).
  - destruct (py_index0 _) as [fd|]; [|discriminate]. cbn [bind].
    destruct fd as [| | | | |fdd]; try discriminate. cbn [py_get bind].
    destruct (extract_score _) as [score|]; discriminate.
Qed.

Lemma existsb_incl {A : Type} (f : A -> bool) (l m : list A) :
  incl l m -> existsb f l = true -> existsb f m = true.
Proof.
  intros Hincl H. apply existsb_exists in H as [x [Hx Hf]].
  apply existsb_exists. exists x. split; [now apply Hincl | assumption].
Qed.

(** Going through the same entries again with the set the first pass
    left adds nothing: every entry the first pass got past is skipped, and
    the entry it failed on fails again. *)
Lemma fetch_loop_again (vulnerabilities : list pyval) :
  forall (cves : list dict) (processed : list pyval)
         (out : result (list dict)) (processed' : list pyval),
  fetch_loop vulnerabilities cves processed = (out, processed') ->
  forall cves2,
  fetch_loop vulnerabilities cves2 processed'
  = (match out with Ok _ => Ok cves2 | Raise e => Raise e end, processed').
Proof.
  induction vulnerabilities as [|v vs IH]; intros cves p out p'; simpl.
  - now intros [= <- <-] cves2.
  - destruct (visit v p) as [[|id info]|e] eqn:Hv.
    + intros Hloop cves2.
      destruct (visit_skip_hashable v p Hv) as [id [Hid [Hh Hseen]]].
      rewrite (visit_seen v p' id Hid Hh).
      * now apply (IH cves p).
      * apply (existsb_incl _ p p'); [|assumption].
        now apply (fetch_loop_incl vs cves p out p').
    + intros Hloop cves2.
      destruct (visit_fresh_shape v p id info Hv) as [_ [_ [Hh _]]].
      rewrite (visit_seen v p' id (visit_fresh_entry v p id info Hv) Hh).
      * now apply (IH (cves ++ [info])%list (id :: p)).
      * apply (existsb_incl _ (id :: p) p').
        -- now apply (fetch_loop_incl vs (cves ++ [info])%list (id :: p) out p').
        -- simpl. now rewrite (py_eq_refl_hashable id Hh).
    + intros [= <- <-] cves2. now rewrite Hv.
Qed.

(** X13.  Asking again for a page right after a call on that page, and
    whatever that call did, returns no record and changes nothing in the
    fetcher. *)
Theorem refetch_returns_nothing (reply : feed_reply) (self : CVEFetcher) :
  fetch_latest_cves reply (snd (fetch_latest_cves reply self))
  = ([], snd (fetch_latest_cves reply self)).
Proof.
  unfold fetch_latest_cves, try_fetch.
  destruct reply as [| |data]; try reflexivity.
  destruct (bind _ _) as [vs|e]; [|reflexivity].
  destruct (fetch_loop vs [] (processed_cves self)) as [out p'] eqn:Hl.
  pose proof (fetch_loop_again vs [] (processed_cves self) out p' Hl []) as H2.
  destruct out as [cves|e]; cbn [snd processed_cves]; now rewrite H2.
Qed.

Lemma successful_run_covers (replies : list feed_reply) :
  forall (returned : list dict) (self : CVEFetcher),
  (forall y, In y (processed_cves self) ->
             exists r, In r returned /\ record_id r = y) ->
  all_succeed replies self = true ->
  forall reply v, In reply replies -> In v (window_of reply) ->
  exists id r,
    entry_id v = Ok id /\
    In r (returned ++ concat (fst (fetch_many replies self)))%list /\
    py_eq (record_id r) id = true.
Proof.
  induction replies as [|reply0 rest IH]; intros returned self Hexact Hall;
    [contradiction|].
  simpl in Hall.
  destruct (try_fetch reply0 self) as [[cves|e] self1] eqn:Htry; [|discriminate].
  destruct (successful_call_returns_window returned reply0 self self1 cves
              Hexact Htry) as [Hfetch [Hexact1 Hwin]].
  simpl. rewrite Hfetch.
  specialize (IH (returned ++ cves)%list self1 Hexact1 Hall).
  destruct (fetch_many rest self1) as [later self2]. simpl in *.
  intros reply v [<-|Hin] Hv.
  - destruct (Hwin v Hv) as [id [r [Hid [Hr Heq]]]].
    exists id, r. repeat split; try assumption.
    rewrite app_assoc. apply in_or_app. now left.
  - destruct (IH reply v Hin Hv) as [id [r [Hid [Hr Heq]]]].
    exists id, r. repeat split; try assumption. now rewrite app_assoc.
Qed.

(** X14.  In a run on a new fetcher in which no call ends in an
    exception, every entry of every page has its identifier on one of the
    returned records: nothing the feed delivered is left out. *)
Theorem successful_run_returns_every_identifier (replies : list feed_reply)
    (reply : feed_reply) (v : pyval) :
  all_succeed replies new_fetcher = true ->
  In reply replies ->
  In v (window_of reply) ->
  exists id r,
    entry_id v = Ok id /\
    In r (concat (fst (fetch_many replies new_fetcher))) /\
    py_eq (record_id r) id = true.
Proof.
  intros Hall Hin Hv.
  apply (successful_run_covers replies [] new_fetcher) with (reply := reply);
    try assumption.
  intros y [].
Qed.

Lemma successful_run_returns_every_identifier_witness :
  exists id r,
    entry_id (Demo.feed_entry "CVE-2024-0001" "Overflow in a PLC" []) = Ok id /\
    In r (concat (fst (fetch_many
            [Demo.feed_page [Demo.feed_entry "CVE-2024-0001" "Overflow in a PLC" []];
             Demo.feed_page [Demo.feed_entry "CVE-2024-0001" "Overflow in a PLC" [];
                             Demo.feed_entry "CVE-2024-0002" "Default password on an HMI" []]]
            new_fetcher))) /\
    py_eq (record_id r) id = true.
Proof.
  apply (successful_run_returns_every_identifier
           [Demo.feed_page [Demo.feed_entry "CVE-2024-0001" "Overflow in a PLC" []];
            Demo.feed_page [Demo.feed_entry "CVE-2024-0001" "Overflow in a PLC" [];
                            Demo.feed_entry "CVE-2024-0002" "Default password on an HMI" []]]
           (Demo.feed_page [Demo.feed_entry "CVE-2024-0001" "Overflow in a PLC" [];
                            Demo.feed_entry "CVE-2024-0002" "Default password on an HMI" []])
           (Demo.feed_entry "CVE-2024-0001" "Overflow in a PLC" [])).
  - vm_compute. reflexivity.
  - simpl. right. left. reflexivity.
  - simpl. left. reflexivity.
Defined.

(** ** The store and the driver loop *)

Lemma add_threat_distinct (store : list OTThreat) (t : OTThreat) :
  ForallOrdPairs distinct_threat_ids store ->
  ForallOrdPairs distinct_threat_ids (add_threat store t).
Proof.
  intros H. unfold add_threat.
  destruct (existsb _ store) eqn:E; [assumption|].
  apply ForallOrdPairs_snoc; [assumption|].
  apply Forall_forall. intros e He. unfold distinct_threat_ids.
  destruct (py_eq (cve_id e) (cve_id t)) eqn:Heq; [|reflexivity].
  assert (existsb (fun e => py_eq (cve_id e) (cve_id t)) store = true)
    by (apply existsb_exists; now exists e).
  congruence.
Qed.

Lemma add_threats_distinct (batch : list OTThreat) :
  forall store,
  ForallOrdPairs distinct_threat_ids store ->
  ForallOrdPairs distinct_threat_ids (add_threats store batch).
Proof.
  unfold add_threats.
  induction batch as [|t ts IH]; intros store H; simpl; [assumption|].
  apply IH. now apply add_threat_distinct.
Qed.

Section DriverFacts.

Variable file_text : Type.
Variable json_dump : pyval -> file_text.
Variable oracle : list string -> string -> oracle_reply.
Variable now_isoformat : nat -> string.
Variable json_loads : string -> option pyval.
Variable str_strip : string -> string.
Variable py_format : pyval -> string.

Local Abbreviation cycle :=
  (run_cycle file_text json_dump oracle now_isoformat json_loads str_strip
     py_format).
Local Abbreviation run :=
  (run_continuous file_text json_dump oracle now_isoformat json_loads
     str_strip py_format).
Local Abbreviation store_of st := (ot_threats (agent file_text st)).

(** What a cycle does to the store and to the files, whichever way it
    ends: it appends some threats through [add_threats], and either leaves
    the files alone with the store unchanged, or writes the new store to
    the output file. *)
Lemma run_cycle_effect (reply : feed_reply) (st : state file_text) :
  exists threats,
    store_of (snd (cycle reply st)) = add_threats (store_of st) threats /\
    ((store_of (snd (cycle reply st)) = store_of st /\
      files file_text (snd (cycle reply st)) = files file_text st) \/
     files file_text (snd (cycle reply st))
       = write_file file_text output_file
           (json_dump (PyList (map asdict (store_of (snd (cycle reply st))))))
           (files file_text st)).
Proof.
  unfold run_cycle.
  destruct (fetch_latest_cves reply _) as [new_cves fetcher1].
  destruct new_cves as [|c cs].
  - exists []. simpl. split; [reflexivity | now left].
  - destruct (batch_analyze _ _ _ _ _ (c :: cs) _) as [[threats|e] w].
    + exists threats. simpl. split; [reflexivity | now right].
    + exists []. simpl. split; [reflexivity | now left].
Qed.

Lemma run_effect (replies : list feed_reply) :
  forall st : state file_text,
  exists threats,
    store_of (snd (run replies st)) = add_threats (store_of st) threats.
Proof.
  induction replies as [|reply rest IH]; intros st; simpl.
  - now exists [].
  - destruct (run_cycle_effect reply st) as [ts [Hstore _]].
    destruct (cycle reply st) as [[u|e] st1]; simpl in *.
    + destruct (IH st1) as [ts' Hrest]. exists (ts ++ ts')%list.
      rewrite Hrest, Hstore. unfold add_threats. now rewrite fold_left_app.
    + now exists ts.
Qed.

(** X15.  If no two stored threats have equal identifiers when the loop
    starts, none have after any number of cycles, whatever the feed and
    the oracle do and however the run ends. *)
Theorem run_keeps_identifiers_unique (replies : list feed_reply)
    (st : state file_text) :
  ForallOrdPairs distinct_threat_ids (store_of st) ->
  ForallOrdPairs distinct_threat_ids (store_of (snd (run replies st))).
Proof.
  intros H. destruct (run_effect replies st) as [ts ->].
  now apply add_threats_distinct.
Qed.

(** X16.  The store only grows at its end: after any number of cycles the
    list of threats is the list the loop started with, followed by what was
    added; no stored threat is removed, moved or rewritten. *)
Theorem run_only_appends (replies : list feed_reply) (st : state file_text) :
  exists added,
    store_of (snd (run replies st)) = (store_of st ++ added)%list.
Proof.
  destruct (run_effect replies st) as [ts ->].
  destruct (add_threats_extends ts (store_of st)) as [added [Heq _]].
  now exists added.
Qed.

Lemma run_cycle_in_sync (reply : feed_reply) (st : state file_text) :
  in_sync json_dump st -> in_sync json_dump (snd (cycle reply st)).
Proof.
  intros Hsync. unfold in_sync in *.
  destruct (run_cycle_effect reply st) as [ts [_ [[Hs Hf] | Hw]]].
  - now rewrite Hs, Hf.
  - left. rewrite Hw. apply read_after_write.
Qed.

Lemma run_in_sync (replies : list feed_reply) :
  forall st : state file_text,
  in_sync json_dump st -> in_sync json_dump (snd (run replies st)).
Proof.
  induction replies as [|reply rest IH]; intros st Hsync; simpl; [assumption|].
  pose proof (run_cycle_in_sync reply st Hsync) as H1.
  destruct (cycle reply st) as [[u|e] st1]; simpl in *; [now apply IH | assumption].
Qed.

(** X17.  If the output file holds the store when the loop starts (or
    there is no file and no threat), it does after any number of cycles,
    however the run ends; an agent constructed then over the files, with a
    [json.load] that reads the document back, starts with exactly the
    threats the stopped agent had. *)
Theorem restart_recovers_store (json_load : file_text -> option pyval)
    (replies : list feed_reply) (st : state file_text) :
  in_sync json_dump st ->
  json_load (json_dump (PyList (map asdict (store_of (snd (run replies st))))))
    = Some (PyList (map asdict (store_of (snd (run replies st))))) ->
  in_sync json_dump (snd (run replies st)) /\
  new_agent file_text json_load (files file_text (snd (run replies st)))
    = Ok (mkAgent new_fetcher (store_of (snd (run replies st)))).
Proof.
  intros Hsync Hcodec.
  pose proof (run_in_sync replies st Hsync) as Hs. split; [assumption|].
  unfold new_agent, load_existing_threats.
  destruct Hs as [Hfile | [Hnone Hempty]].
  - rewrite Hfile, Hcodec. cbn [py_iter bind]. now rewrite from_items_asdict.
  - now rewrite Hnone, Hempty.
Qed.

Lemma run_cycle_other_files (reply : feed_reply) (st : state file_text)
    (name : string) :
  String.eqb name output_file = false ->
  files file_text (snd (cycle reply st)) name = files file_text st name.
Proof.
  intros Hname.
  destruct (run_cycle_effect reply st) as [ts [_ [[_ Hf] | Hw]]].
  - now rewrite Hf.
  - rewrite Hw. unfold write_file. now rewrite Hname.
Qed.

(** X18.  The loop writes to no file but the output file: any other file
    is, after any number of cycles, as it was. *)
Theorem run_touches_only_output_file (replies : list feed_reply)
    (st : state file_text) (name : string) :
  name <> output_file ->
  files file_text (snd (run replies st)) name = files file_text st name.
Proof.
  intros Hname. apply String.eqb_neq in Hname.
  revert st. induction replies as [|reply rest IH]; intros st; simpl;
    [reflexivity|].
  pose proof (run_cycle_other_files reply st name Hname) as H1.
  destruct (cycle reply st) as [[u|e] st1]; simpl in *.
  - now rewrite IH.
  - assumption.
Qed.

End DriverFacts.

Lemma run_keeps_identifiers_unique_witness :
  ForallOrdPairs distinct_threat_ids (ot_threats (agent pyval Examples.finish)).
Proof.
  apply (run_keeps_identifiers_unique pyval (fun v => v) Demo.oracle_down
           Demo.clock Demo.loads Demo.strip Demo.format Examples.pages
           Examples.start).
  simpl. constructor.
Defined.

Lemma restart_recovers_store_witness :
  in_sync (fun v : pyval => v) Examples.finish /\
  new_agent pyval (fun v => Some v) (files pyval Examples.finish)
    = Ok (mkAgent new_fetcher (ot_threats (agent pyval Examples.finish))).
Proof.
  apply (restart_recovers_store pyval (fun v => v) Demo.oracle_down
           Demo.clock Demo.loads Demo.strip Demo.format (fun v => Some v)
           Examples.pages Examples.start).
  - right. split; reflexivity.
  - reflexivity.
Defined.

Lemma run_touches_only_output_file_witness :
  files pyval Examples.finish "agent.log" = files pyval Examples.start "agent.log".
Proof.
  apply (run_touches_only_output_file pyval (fun v => v) Demo.oracle_down
           Demo.clock Demo.loads Demo.strip Demo.format Examples.pages
           Examples.start "agent.log").
  vm_compute. discriminate.
Defined.

(** ** Loading, continued *)

Lemma dict_lookup_key (k : string) (d : dict) (v : pyval) :
  dict_lookup k d = Some v -> In k (dict_keys d).
Proof.
  induction d as [|[k' x] d IH]; simpl; [discriminate|].
  destruct (String.eqb k k') eqn:E.
  - intros _. left. symmetry. now apply String.eqb_eq.
  - intros H. right. now apply IH.
Qed.

Lemma from_item_error (item : pyval) (e : exn) :
  from_item item = Raise e -> e = TypeError.
Proof.
  unfold from_item. destruct item as [| | | | |d]; try (now intros [= <-]).
  destruct (forallb _ (dict_keys d)); [|now intros [= <-]].
  destruct (dict_lookup "cve_id" d), (dict_lookup "cvss_score" d),
    (dict_lookup "description" d), (dict_lookup "ai_insight" d),
    (dict_lookup "ot_keywords_found" d), (dict_lookup "timestamp" d);
    try discriminate; now intros [= <-].
Qed.

Lemma from_items_error (items : list pyval) (item : pyval) (e : exn) :
  In item items -> from_item item = Raise e ->
  from_items items = Raise TypeError.
Proof.
  induction items as [|x xs IH]; [contradiction|].
  intros [->|Hin] Hbad; simpl.
  - rewrite Hbad, (from_item_error item e Hbad). reflexivity.
  - destruct (from_item x) as [t|e'] eqn:Hx; simpl.
    + now rewrite (IH Hin Hbad).
    + now rewrite (from_item_error x e' Hx).
Qed.

(** X19.  What [load_existing_threats] accepts as a stored threat is an
    object with exactly the six fields, and the threat it builds turns back
    under [asdict] into an object with the same value under every key. *)
Theorem loaded_item_round_trip (item : pyval) (t : OTThreat) :
  from_item item = Ok t ->
  exists d d',
    item = PyDict d /\ asdict t = PyDict d' /\
    (forall k, In k (dict_keys d) -> In k field_names) /\
    forall k, dict_lookup k d = dict_lookup k d'.
Proof.
  unfold from_item. destruct item as [| | | | |d]; try discriminate.
  destruct (forallb _ (dict_keys d)) eqn:Hkeys; [|discriminate].
  destruct (dict_lookup "cve_id" d) as [a|] eqn:H1; [|discriminate].
  destruct (dict_lookup "cvss_score" d) as [b|] eqn:H2; [|discriminate].
  destruct (dict_lookup "description" d) as [c|] eqn:H3; [|discriminate].
  destruct (dict_lookup "ai_insight" d) as [e|] eqn:H4; [|discriminate].
  destruct (dict_lookup "ot_keywords_found" d) as [f|] eqn:H5; [|discriminate].
  destruct (dict_lookup "timestamp" d) as [g|] eqn:H6; [|discriminate].
  intros [= <-]. eexists. eexists. split; [reflexivity|].
  split; [reflexivity|].
  rewrite forallb_forall in Hkeys.
  assert (Hfields : forall k, In k (dict_keys d) -> In k field_names).
  { intros k Hk. apply Hkeys in Hk. apply existsb_exists in Hk as [x [Hx Heq]].
    apply String.eqb_eq in Heq. now subst. }
  split; [exact Hfields|].
  intros k. cbn [dict_lookup cve_id cvss_score description ai_insight
                 ot_keywords_found timestamp].
  destruct (String.eqb k "cve_id") eqn:E1;
    [apply String.eqb_eq in E1; now subst|].
  destruct (String.eqb k "cvss_score") eqn:E2;
    [apply String.eqb_eq in E2; now subst|].
  destruct (String.eqb k "description") eqn:E3;
    [apply String.eqb_eq in E3; now subst|].
  destruct (String.eqb k "ai_insight") eqn:E4;
    [apply String.eqb_eq in E4; now subst|].
  destruct (String.eqb k "ot_keywords_found") eqn:E5;
    [apply String.eqb_eq in E5; now subst|].
  destruct (String.eqb k "timestamp") eqn:E6;
    [apply String.eqb_eq in E6; now subst|].
  destruct (dict_lookup k d) as [v|] eqn:Hk; [|reflexivity].
  exfalso. apply dict_lookup_key in Hk. apply Hfields in Hk.
  apply String.eqb_neq in E1, E2, E3, E4, E5, E6.
  simpl in Hk. intuition congruence.
Qed.

Lemma loaded_item_round_trip_witness :
  exists d d',
    asdict (Demo.plc_threat "CVE-2024-0001" "first") = PyDict d /\
    asdict (Demo.plc_threat "CVE-2024-0001" "first") = PyDict d' /\
    (forall k, In k (dict_keys d) -> In k field_names) /\
    forall k, dict_lookup k d = dict_lookup k d'.
Proof.
  apply (loaded_item_round_trip
           (asdict (Demo.plc_threat "CVE-2024-0001" "first"))
           (Demo.plc_threat "CVE-2024-0001" "first")).
  reflexivity.
Defined.

(** X20.  Loading is all or nothing: if the output file parses to a list
    with one item that is not an object of exactly the six fields, the
    constructor raises [TypeError] and no agent is built, however many good
    items the file holds. *)
Theorem one_bad_item_blocks_start {file_text : Type}
    (json_load : file_text -> option pyval) (fs : filesystem file_text)
    (text : file_text) (items : list pyval) (item : pyval) (e : exn) :
  fs output_file = Some text ->
  json_load text = Some (PyList items) ->
  In item items ->
  from_item item = Raise e ->
  new_agent file_text json_load fs = Raise TypeError.
Proof.
  intros Hfile Hparse Hin Hbad.
  unfold new_agent, load_existing_threats. rewrite Hfile, Hparse.
  cbn [py_iter bind]. now rewrite (from_items_error items item e Hin Hbad).
Qed.

Lemma one_bad_item_blocks_start_witness :
  new_agent pyval (fun v => Some v)
    (fun _ => Some (PyList [asdict (Demo.plc_threat "CVE-2024-0002" "other");
                            Examples.item_without_timestamp]))
  = Raise TypeError.
Proof.
  apply (one_bad_item_blocks_start (fun v : pyval => Some v)
           (fun _ => Some (PyList [asdict (Demo.plc_threat "CVE-2024-0002" "other");
                                   Examples.item_without_timestamp]))
           (PyList [asdict (Demo.plc_threat "CVE-2024-0002" "other");
                    Examples.item_without_timestamp])
           [asdict (Demo.plc_threat "CVE-2024-0002" "other");
            Examples.item_without_timestamp]
           Examples.item_without_timestamp TypeError).
  - reflexivity.
  - reflexivity.
  - simpl. right. left. reflexivity.
  - reflexivity.
Defined.

(** ** The dashboard *)

Lemma cvss_scores_of_saved (store : list OTThreat) :
  Dashboard.cvss_scores_of (map asdict store)
  = Ok (filter py_truthy (map cvss_score store)).
Proof.
  induction store as [|t ts IH]; [reflexivity|].
  cbn [map Dashboard.cvss_scores_of asdict py_get bind filter].
  replace (dict_get _ "cvss_score" PyNone) with (cvss_score t) by reflexivity.
  replace (dict_get _ "cvss_score" (PyNum 0)) with (cvss_score t) by reflexivity.
  destruct (py_truthy (cvss_score t)); rewrite IH; reflexivity.
Qed.

Lemma cvss_scores_of_truthy (items : list pyval) :
  forall scores,
  Dashboard.cvss_scores_of items = Ok scores ->
  Forall (fun v => py_truthy v = true) scores.
Proof.
  induction items as [|t rest IH]; intros scores; simpl.
  - intros [= <-]. constructor.
  - destruct t as [| | | | |d]; try discriminate. cbn [py_get bind].
    destruct (py_truthy (dict_get d "cvss_score" PyNone)) eqn:Ht.
    + destruct (Dashboard.cvss_scores_of rest) as [tl|e]; [|discriminate].
      cbn [bind]. intros [= <-]. constructor; [|now apply IH].
      unfold dict_get in *. destruct (dict_lookup "cvss_score" d); [assumption|].
      discriminate.
    + apply IH.
Qed.

(** X21.  The scores the dashboard draws in its histogram are all true in
    a condition: a threat without a score ([None]) or with score 0 is left
    out.  On a list of threats as the agent saves them, the histogram gets
    exactly the stored scores that are neither [None] nor zero, in store
    order. *)
Theorem histogram_leaves_out_unscored (store : list OTThreat) (threats : pyval)
    (scores : list pyval) :
  Dashboard.cvss_scores (PyList (map asdict store))
    = Ok (filter py_truthy (map cvss_score store)) /\
  (Dashboard.cvss_scores threats = Ok scores ->
   Forall (fun v => py_truthy v = true) scores).
Proof.
  split.
  - unfold Dashboard.cvss_scores.
    destruct store as [|t ts]; [reflexivity|].
    cbn [py_truthy map py_iter bind]. apply (cvss_scores_of_saved (t :: ts)).
  - unfold Dashboard.cvss_scores.
    destruct (py_truthy threats); [|intros [= <-]; constructor].
    destruct (py_iter threats) as [items|e]; [|discriminate].
    cbn [bind]. apply cvss_scores_of_truthy.
Qed.

Lemma histogram_leaves_out_unscored_witness :
  Forall (fun v => py_truthy v = true) [PyNum (75 # 10)].
Proof.
  destruct (histogram_leaves_out_unscored []
              (PyList [asdict (Demo.plc_threat "CVE-2024-0001" "first");
                       PyDict [("cve_id", PyStr "CVE-2024-0002");
                               ("cvss_score", PyNone)]])
              [PyNum (75 # 10)]) as [_ H].
  apply H. reflexivity.
Defined.

(** X22.  The dashboard's [load_data] reads back the list of objects the
    agent's [save_threats] wrote (both use the same default file name),
    given a [json.load] that reads the document back; and none of these
    objects has references, so the references block of a threat is never
    shown for a threat the agent saved. *)
Theorem dashboard_reads_what_agent_saved {file_text : Type}
    (json_dump : pyval -> file_text) (json_load : file_text -> option pyval)
    (self : AutonomousOTAgent) (fs : filesystem file_text) :
  json_load (json_dump (PyList (map asdict (ot_threats self))))
    = Some (PyList (map asdict (ot_threats self))) ->
  Dashboard.load_data json_load (save_threats file_text json_dump self fs)
    = Ok (PyList (map asdict (ot_threats self))) /\
  Forall (fun item => Dashboard.shows_references item = Ok false)
         (map asdict (ot_threats self)).
Proof.
  intros Hcodec. split.
  - unfold Dashboard.load_data, save_threats.
    change Dashboard.data_file with output_file.
    now rewrite read_after_write, Hcodec.
  - apply Forall_forall. intros item Hin.
    apply in_map_iff in Hin as [t [<- _]]. reflexivity.
Qed.

Lemma dashboard_reads_what_agent_saved_witness :
  Dashboard.load_data (fun v => Some v)
    (save_threats pyval (fun v => v) (agent pyval Examples.finish)
       (fun _ => None))
    = Ok (PyList (map asdict (ot_threats (agent pyval Examples.finish)))) /\
  Forall (fun item => Dashboard.shows_references item = Ok false)
         (map asdict (ot_threats (agent pyval Examples.finish))).
Proof.
  apply (dashboard_reads_what_agent_saved (fun v : pyval => v) (fun v => Some v)
           (agent pyval Examples.finish) (fun _ => None)).
  reflexivity.
Defined.

Lemma Qle_bool_upward (c p q : Q) :
  Qle_bool c p = true -> (p <= q)%Q -> Qle_bool c q = true.
Proof.
  rewrite !Qle_bool_iff. intros Hc Hpq. now apply (Qle_trans c p q).
Qed.

(** X23.  [color_cvss] never paints a higher score as less alarming: of
    two scores the greater gets the same style or a more alarming one, in
    the order green, yellow, orange, red. *)
Theorem color_cvss_monotone (p q : Q) :
  (p <= q)%Q ->
  style_rank (Dashboard.color_cvss p) <= style_rank (Dashboard.color_cvss q).
Proof.
  intros Hpq. unfold Dashboard.color_cvss.
  destruct (Qle_bool 9 p) eqn:P9.
  - rewrite (Qle_bool_upward 9 p q P9 Hpq). apply le_n.
  - destruct (Qle_bool 7 p) eqn:P7.
    + rewrite (Qle_bool_upward 7 p q P7 Hpq).
      destruct (Qle_bool 9 q); vm_compute; lia.
    + destruct (Qle_bool 4 p) eqn:P4.
      * rewrite (Qle_bool_upward 4 p q P4 Hpq).
        destruct (Qle_bool 9 q); [vm_compute; lia|].
        destruct (Qle_bool 7 q); vm_compute; lia.
      * destruct (Qle_bool 9 q); [vm_compute; lia|].
        destruct (Qle_bool 7 q); [vm_compute; lia|].
        destruct (Qle_bool 4 q); vm_compute; lia.
Qed.

Lemma color_cvss_monotone_witness :
  style_rank (Dashboard.color_cvss (75 # 10))
  <= style_rank (Dashboard.color_cvss (98 # 10)).
Proof.
  apply (color_cvss_monotone (75 # 10) (98 # 10)).
  vm_compute. discriminate.
Defined.

(* ===================================================================== *)
(** * The relevance filter on arbitrary text *)
(* ===================================================================== *)

Lemma ustartswith_spec (p s : Unicode.ustr) :
  Unicode.startswith p s = true <-> exists rest, s = (p ++ rest)%list.
Proof.
  revert s; induction p as [|a p IH]; intros s; simpl.
  - split; [intros _; now exists s | reflexivity].
  - destruct s as [|b s].
    + split; [discriminate | intros [r Hr]; discriminate].
    + rewrite andb_true_iff, N.eqb_eq, IH. split.
      * intros [-> [r ->]]. now exists r.
      * intros [r Hr]. injection Hr as -> ->. split; [reflexivity | now exists r].
Qed.

(** [contains] decides "is a contiguous piece of". *)
Lemma contains_spec (needle hay : Unicode.ustr) :
  Unicode.contains needle hay = true <->
  exists pre post, hay = (pre ++ needle ++ post)%list.
Proof.
  induction hay as [|c hay IH].
  - cbn [Unicode.contains]. rewrite ustartswith_spec. split.
    + intros [r Hr]. now exists [], r.
    + intros [pre [post H]]. destruct pre; [now exists post | discriminate].
  - cbn [Unicode.contains]. rewrite orb_true_iff, ustartswith_spec, IH. split.
    + intros [[r Hr] | [pre [post H]]].
      * now exists [], r.
      * exists (c :: pre), post. simpl. now rewrite H.
    + intros [pre [post H]]. destruct pre as [|x pre].
      * left. now exists post.
      * right. simpl in H. injection H as _ H. now exists pre, post.
Qed.

Lemma unicode_found_In (str_lower : Unicode.ustr -> Unicode.ustr)
    (text : Unicode.ustr) (k : string) :
  In k (Unicode.found_keywords str_lower text) <->
  In k ot_keywords /\ Unicode.occurs_lowered str_lower k text.
Proof.
  unfold Unicode.found_keywords, Unicode.occurs_lowered.
  rewrite filter_In.
  now rewrite (contains_spec (str_lower (Unicode.codepoints k)) (str_lower text)).
Qed.

(** Two characters lower alike exactly when they are the same letter. *)
Lemma lower_cp_same_letter (a b : N) :
  Unicode.lower_cp a = Unicode.lower_cp b <-> Unicode.same_letter a b = true.
Proof.
  unfold Unicode.lower_cp, Unicode.same_letter, Unicode.is_capital.
  rewrite !orb_true_iff, !andb_true_iff, !N.eqb_eq, !N.leb_le.
  destruct (65 <=? a)%N eqn:A1; destruct (a <=? 90)%N eqn:A2;
    destruct (65 <=? b)%N eqn:B1; destruct (b <=? 90)%N eqn:B2; simpl;
    rewrite ?N.leb_le, ?N.leb_gt in *; split; intros H; lia.
Qed.

Lemma ascii_lower_same_up_to_case (s : Unicode.ustr) :
  forall t,
  Unicode.ascii_lower s = Unicode.ascii_lower t <->
  Unicode.same_up_to_case s t = true.
Proof.
  unfold Unicode.ascii_lower.
  induction s as [|a s IH]; intros [|b t]; simpl;
    try (split; [discriminate | discriminate]); [split; reflexivity|].
  rewrite andb_true_iff, <- IH, <- lower_cp_same_letter. split.
  - now intros [= -> ->].
  - now intros [-> ->].
Qed.

Lemma is_ascii_app (s t : Unicode.ustr) :
  Unicode.is_ascii (s ++ t)%list = Unicode.is_ascii s && Unicode.is_ascii t.
Proof. apply forallb_app. Qed.

Lemma same_letter_ascii (a b : N) :
  Unicode.same_letter a b = true -> (a <? 128)%N = true -> (b <? 128)%N = true.
Proof.
  unfold Unicode.same_letter, Unicode.is_capital.
  rewrite !orb_true_iff, !andb_true_iff, !N.eqb_eq, !N.leb_le, !N.ltb_lt.
  lia.
Qed.

Lemma same_up_to_case_ascii (s : Unicode.ustr) :
  forall t,
  Unicode.same_up_to_case s t = true ->
  Unicode.is_ascii s = true -> Unicode.is_ascii t = true.
Proof.
  induction s as [|a s IH]; intros [|b t]; simpl; try discriminate;
    [reflexivity|].
  rewrite !andb_true_iff. intros [Hab Hst] [Ha Hs]. split.
  - now apply (same_letter_ascii a b).
  - now apply IH.
Qed.

Lemma keywords_are_ascii (k : string) :
  In k ot_keywords -> Unicode.is_ascii (Unicode.codepoints k) = true.
Proof.
  assert (H : forallb (fun k => Unicode.is_ascii (Unicode.codepoints k))
                ot_keywords = true) by (vm_compute; reflexivity).
  rewrite forallb_forall in H. apply H.
Qed.

(** On ASCII text, "the lowered keyword is a piece of the lowered text"
    and "a piece of the text is the keyword up to case" are the same. *)
Lemma occurs_lowered_up_to_case (str_lower : Unicode.ustr -> Unicode.ustr)
    (k : string) (text : Unicode.ustr) :
  Unicode.lowers_ascii str_lower ->
  In k ot_keywords ->
  Unicode.is_ascii text = true ->
  (Unicode.occurs_lowered str_lower k text <-> Unicode.occurs_up_to_case k text).
Proof.
  intros Hlow Hk Htext.
  unfold Unicode.occurs_lowered, Unicode.occurs_up_to_case.
  rewrite (Hlow text Htext), (Hlow _ (keywords_are_ascii k Hk)). split.
  - intros [p [q H]]. unfold Unicode.ascii_lower in H at 1.
    apply map_eq_app in H as [pre [tl [-> [_ Htl]]]].
    apply map_eq_app in Htl as [mid [post [-> [Hmid _]]]].
    exists pre, mid, post. split; [reflexivity|].
    now apply ascii_lower_same_up_to_case.
  - intros [pre [mid [post [-> Hmid]]]].
    apply ascii_lower_same_up_to_case in Hmid.
    exists (Unicode.ascii_lower pre), (Unicode.ascii_lower post).
    rewrite <- Hmid. unfold Unicode.ascii_lower. now rewrite !map_app.
Qed.

(** C4.  For every text, as a sequence of code points, and whatever
    [str.lower] does to it: the matched-term list is the one list that
    keeps terms of the fixed keyword list in the order of that list (not
    the order of occurrence) and holds exactly the terms whose lowered form
    is a contiguous piece of the lowered text, with no tokenization.  On
    ASCII text, where [str.lower] moves 'A'..'Z' to 'a'..'z', these are
    exactly the terms of which some contiguous piece of the text is a copy
    up to the case of letters. *)
Theorem relevance_filter_exact (str_lower : Unicode.ustr -> Unicode.ustr)
    (text : Unicode.ustr) (l : list string) :
  (l = Unicode.found_keywords str_lower text <->
   (subsequence l ot_keywords /\
    forall k, In k l <->
              (In k ot_keywords /\ Unicode.occurs_lowered str_lower k text))) /\
  (Unicode.lowers_ascii str_lower ->
   Unicode.is_ascii text = true ->
   forall k, In k (Unicode.found_keywords str_lower text) <->
             (In k ot_keywords /\ Unicode.occurs_up_to_case k text)).
Proof.
  split.
  - split.
    + intros ->. split.
      * apply subsequence_filter.
      * intros k. apply unicode_found_In.
    + intros [Hsub Hmem].
      apply (subsequence_unique ot_keywords ot_keywords_NoDup).
      * assumption.
      * apply subsequence_filter.
      * intros k. rewrite (Hmem k). symmetry. apply unicode_found_In.
  - intros Hlow Htext k. rewrite unicode_found_In. split.
    + intros [Hk Hocc]. split; [assumption|].
      now apply (occurs_lowered_up_to_case str_lower k text Hlow Hk Htext).
    + intros [Hk Hocc]. split; [assumption|].
      now apply (occurs_lowered_up_to_case str_lower k text Hlow Hk Htext).
Qed.

Lemma relevance_filter_exact_witness :
  In "PLC" (Unicode.found_keywords Unicode.ascii_lower
              (Unicode.codepoints "Overflow in a plc gateway")) <->
  (In "PLC" ot_keywords /\
   Unicode.occurs_up_to_case "PLC"
     (Unicode.codepoints "Overflow in a plc gateway")).
Proof.
  destruct (relevance_filter_exact Unicode.ascii_lower
              (Unicode.codepoints "Overflow in a plc gateway") [])
    as [_ Hascii].
  apply Hascii.
  - intros s _. reflexivity.
  - reflexivity.
Defined.

Lemma existsb_map {A B : Type} (f : B -> bool) (g : A -> B) (l : list A) :
  existsb f (map g l) = existsb (fun x => f (g x)) l.
Proof.
  induction l as [|x l IH]; simpl; [reflexivity | now rewrite IH].
Qed.

Lemma filter_nonempty_existsb {A : Type} (f : A -> bool) (l : list A) :
  existsb f l = true <-> filter f l <> [].
Proof.
  induction l as [|x l IH]; simpl.
  - split; [discriminate | congruence].
  - destruct (f x); simpl; [split; [discriminate | reflexivity] | exact IH].
Qed.

(** X1.  For every text and whatever [str.lower] does, [is_ot_related]
    answers True exactly when the comprehension of [analyze_with_llm]
    finds a keyword, that is exactly when the lowered form of some keyword
    of the fixed list is a contiguous piece of the lowered text: the two
    copies of the keyword test in the class agree. *)
Theorem is_ot_related_agrees_with_filter
    (str_lower : Unicode.ustr -> Unicode.ustr) (text : Unicode.ustr) :
  (Unicode.is_ot_related str_lower text = true <->
   Unicode.found_keywords str_lower text <> []) /\
  (Unicode.is_ot_related str_lower text = true <->
   exists k, In k ot_keywords /\ Unicode.occurs_lowered str_lower k text).
Proof.
  assert (Hagree : Unicode.is_ot_related str_lower text = true <->
                   Unicode.found_keywords str_lower text <> []).
  { unfold Unicode.is_ot_related, Unicode.found_keywords.
    rewrite existsb_map. apply filter_nonempty_existsb. }
  split; [exact Hagree|].
  rewrite Hagree. split.
  - intros Hne.
    destruct (Unicode.found_keywords str_lower text) as [|k ks] eqn:E;
      [congruence|].
    exists k. apply (proj1 (unicode_found_In str_lower text k)).
    rewrite E. now left.
  - intros [k Hk] Hnil.
    apply (proj2 (unicode_found_In str_lower text k)) in Hk.
    rewrite Hnil in Hk. exact Hk.
Qed.

(** X2.  On ASCII text, where [str.lower] moves 'A'..'Z' to 'a'..'z': two
    texts that differ only in the case of letters get the same matched
    list, and a keyword matched in a text is still matched when ASCII text
    is put before and after it.  The filter is blind to letter case and to
    context. *)
Theorem filter_blind_to_case_and_context
    (str_lower : Unicode.ustr -> Unicode.ustr)
    (text other pre post : Unicode.ustr) (k : string) :
  Unicode.lowers_ascii str_lower ->
  Unicode.is_ascii text = true ->
  (Unicode.same_up_to_case text other = true ->
   Unicode.found_keywords str_lower text
   = Unicode.found_keywords str_lower other) /\
  (Unicode.is_ascii pre = true -> Unicode.is_ascii post = true ->
   In k (Unicode.found_keywords str_lower text) ->
   In k (Unicode.found_keywords str_lower (pre ++ text ++ post)%list)).
Proof.
  intros Hlow Htext. split.
  - intros Hsame.
    pose proof (same_up_to_case_ascii text other Hsame Htext) as Hother.
    unfold Unicode.found_keywords.
    rewrite (Hlow text Htext), (Hlow other Hother).
    now rewrite (proj2 (ascii_lower_same_up_to_case text other) Hsame).
  - intros Hpre Hpost Hin.
    apply (proj1 (unicode_found_In str_lower text k)) in Hin as [Hk [p [q Hocc]]].
    apply (proj2 (unicode_found_In str_lower (pre ++ text ++ post)%list k)).
    split; [assumption|].
    assert (Hall : Unicode.is_ascii (pre ++ text ++ post)%list = true)
      by (rewrite !is_ascii_app, Hpre, Htext, Hpost; reflexivity).
    unfold Unicode.occurs_lowered. rewrite (Hlow _ Hall).
    rewrite (Hlow text Htext) in Hocc.
    exists (Unicode.ascii_lower pre ++ p)%list, (q ++ Unicode.ascii_lower post)%list.
    unfold Unicode.ascii_lower in *. rewrite !map_app, Hocc.
    now rewrite <- !app_assoc.
Qed.

Lemma filter_blind_to_case_and_context_witness :
  Unicode.found_keywords Unicode.ascii_lower
    (Unicode.codepoints "Overflow in a PLC")
  = Unicode.found_keywords Unicode.ascii_lower
      (Unicode.codepoints "overflow IN a plc") /\
  In "PLC" (Unicode.found_keywords Unicode.ascii_lower
              (Unicode.codepoints "Advisory: "
               ++ Unicode.codepoints "Overflow in a PLC"
               ++ Unicode.codepoints " (vendor fix)")%list).
Proof.
  destruct (filter_blind_to_case_and_context Unicode.ascii_lower
              (Unicode.codepoints "Overflow in a PLC")
              (Unicode.codepoints "overflow IN a plc")
              (Unicode.codepoints "Advisory: ")
              (Unicode.codepoints " (vendor fix)") "PLC")
    as [Hcase Hcontext].
  - intros s _. reflexivity.
  - reflexivity.
  - split.
    + apply Hcase. reflexivity.
    + apply Hcontext.
      * reflexivity.
      * reflexivity.
      * vm_compute. left. reflexivity.
Defined.

(** ** The pipeline's filter is the filter on ASCII text *)

Lemma N_of_ascii_lower_char (c : ascii) :
  N_of_ascii (lower_char c) = Unicode.lower_cp (N_of_ascii c).
Proof. destruct c as [[] [] [] [] [] [] [] []]; reflexivity. Qed.

Lemma codepoints_lower (s : string) :
  Unicode.codepoints (lower s) = Unicode.ascii_lower (Unicode.codepoints s).
Proof.
  induction s as [|c s IH]; [reflexivity|].
  change (N_of_ascii (lower_char c) :: Unicode.codepoints (lower s)
          = Unicode.lower_cp (N_of_ascii c)
            :: Unicode.ascii_lower (Unicode.codepoints s)).
  now rewrite N_of_ascii_lower_char, IH.
Qed.

Lemma N_of_ascii_eqb (a b : ascii) :
  N.eqb (N_of_ascii a) (N_of_ascii b) = Ascii.eqb a b.
Proof.
  destruct (Ascii.eqb_spec a b) as [->|Hne].
  - apply N.eqb_refl.
  - apply N.eqb_neq. intros H. apply Hne.
    now rewrite <- (ascii_N_embedding a), <- (ascii_N_embedding b), H.
Qed.

Lemma startswith_codepoints (p : string) :
  forall s,
  Unicode.startswith (Unicode.codepoints p) (Unicode.codepoints s)
  = startswith p s.
Proof.
  induction p as [|a p IH]; intros [|b s]; try reflexivity.
  change (N.eqb (N_of_ascii a) (N_of_ascii b)
          && Unicode.startswith (Unicode.codepoints p) (Unicode.codepoints s)
          = Ascii.eqb a b && startswith p s).
  now rewrite N_of_ascii_eqb, IH.
Qed.

Lemma contains_codepoints (needle hay : string) :
  Unicode.contains (Unicode.codepoints needle) (Unicode.codepoints hay)
  = str_in needle hay.
Proof.
  induction hay as [|c hay IH].
  - apply (startswith_codepoints needle "").
  - change (Unicode.startswith (Unicode.codepoints needle)
              (Unicode.codepoints (String c hay))
            || Unicode.contains (Unicode.codepoints needle)
                 (Unicode.codepoints hay)
            = startswith needle (String c hay) || str_in needle hay).
    now rewrite startswith_codepoints, IH.
Qed.

(** On a string of the pipeline whose characters are all ASCII, and with
    any [str.lower] that does to ASCII text what Python's does, the filter
    on code points gives the list [found_keywords] gives. *)
Lemma found_keywords_on_ascii (str_lower : Unicode.ustr -> Unicode.ustr)
    (text : string) :
  Unicode.lowers_ascii str_lower ->
  Unicode.is_ascii (Unicode.codepoints text) = true ->
  Unicode.found_keywords str_lower (Unicode.codepoints text)
  = found_keywords text.
Proof.
  intros Hlow Htext. unfold Unicode.found_keywords, found_keywords.
  apply filter_ext_in. intros k Hk.
  rewrite (Hlow _ Htext), (Hlow _ (keywords_are_ascii k Hk)).
  now rewrite <- !codepoints_lower, contains_codepoints.
Qed.
